(** * ArbyEmulator: the glue between the AVR engine and the host (arduboy_avr.c)

    A shallow embedding of [src/jni/arduboy_avr.c]: the display decoder
    ([update_lumamap], [hook_ssd1306_write_data]), the frame renderer
    ([render_screen] and its colour helpers), the frame scheduler
    ([update_screen]), the input controller ([arduboy_avr_button_event]),
    the persistent-memory accessors and the execution loop.

    Conventions.  C integers are [Z]; a [uintN_t] is a [Z] in [0, 2^N) and
    wrap-around is written out where the code can reach it.  C arrays are
    lists read and written by index; the static arrays of the module keep
    the shape their C type gives them, which the theorems state as
    well-formedness hypotheses.  Stores through the caller's pixel pointer
    are checked against the length of the caller's buffer: a store outside
    it has no defined result ([None]). *)

From Stdlib Require Import ZArith Lia Bool Ascii QArith Qabs Qround.
From stdpp Require Import base option list strings gmap.

Local Open Scope Z_scope.

(** ** Constants of the headers *)

(** Modelled from the spec: [arduboy_avr.h] is not under src/.  The display
    resolution (the LumaMap is "rows x columns" of the display) is that of
    the Arduboy panel, 128 x 64, which is also what the decoder's loop
    bounds [SSD1306_VIRT_PAGES * 8] and [SSD1306_VIRT_COLUMNS] require. *)
Definition OLED_WIDTH_PX : Z := 128.
Definition OLED_HEIGHT_PX : Z := 64.

(** Modelled from the spec: [enum button_e] of [arduboy_avr.h] is not under
    src/; the initialiser of [buttons] lists six buttons, one per physical
    button, in the order of the enumeration. *)
Definition BTN_UP : Z := 0.
Definition BTN_DOWN : Z := 1.
Definition BTN_LEFT : Z := 2.
Definition BTN_RIGHT : Z := 3.
Definition BTN_A : Z := 4.
Definition BTN_B : Z := 5.
Definition BTN_COUNT : Z := 6.

Definition MHZ_16 : Z := 16000000.
Definition REFRESH_PERIOD_US : Z := 16666.

(** ** The display controller (simavr's ssd1306_virt.h) *)

Module Ssd1306.

Definition SSD1306_VIRT_PAGES : nat := 8.
Definition SSD1306_VIRT_COLUMNS : nat := 128.

Definition SSD1306_VIRT_INSTRUCTION : Z := 0.
Definition SSD1306_VIRT_DATA : Z := 1.

(** Bit numbers of the controller's flag word. *)
Definition SSD1306_FLAG_DISPLAY_INVERTED : Z := 0.
Definition SSD1306_FLAG_DISPLAY_ON : Z := 1.
Definition SSD1306_FLAG_SEGMENT_REMAP_0 : Z := 2.
Definition SSD1306_FLAG_COM_SCAN_NORMAL : Z := 3.
Definition SSD1306_FLAG_BUSY : Z := 4.
Definition SSD1306_FLAG_REENTRANT : Z := 5.
Definition SSD1306_FLAG_DIRTY : Z := 6.

Record ssd1306_virt_cursor_t := Cursor { page : Z; column : Z }.

Record ssd1306_t := Ssd {
  vram : list (list Z);          (* uint8_t vram[PAGES][COLUMNS] *)
  flags : Z;                     (* uint16_t *)
  cursor : ssd1306_virt_cursor_t;
  di_pin : Z;                    (* SSD1306_VIRT_DATA / _INSTRUCTION *)
  contrast_register : Z          (* uint8_t *)
}.

(** [(b->flags & (1 << bit)) != 0] *)
Definition ssd1306_get_flag (b : ssd1306_t) (bit : Z) : bool :=
  negb (Z.land (flags b) (Z.shiftl 1 bit) =? 0).

(** [b->flags = (b->flags & ~(1 << bit)) | (val ? (1 << bit) : 0)] *)
Definition ssd1306_set_flag (b : ssd1306_t) (bit : Z) (val : bool) : ssd1306_t :=
  Ssd (vram b)
      (Z.lor (Z.land (flags b) (Z.lnot (Z.shiftl 1 bit)))
             (if val then Z.shiftl 1 bit else 0))
      (cursor b) (di_pin b) (contrast_register b).

(** The cell [vram[p][c]]; the array has no other cells. *)
Definition vram_at (b : ssd1306_t) (p c : nat) : Z :=
  default 0 (vram b !! p ≫= (.!! c)).

End Ssd1306.
Import Ssd1306.

(** ** The LumaMap: [uint8_t lumamap[OLED_HEIGHT_PX][OLED_WIDTH_PX]] *)

Abbreviation lumamap_t := (list (list Z)).

(** [lumamap[r][c] = v] *)
Definition lumamap_set (lm : lumamap_t) (r c : nat) (v : Z) : lumamap_t :=
  alter (λ row, <[c := v]> row) r lm.

(** [lumamap[r][c]] *)
Definition lumamap_get (lm : lumamap_t) (r c : nat) : Z :=
  default 0 (lm !! r ≫= (.!! c)).

Definition wf_lumamap (lm : lumamap_t) : Prop :=
  length lm = Z.to_nat OLED_HEIGHT_PX ∧
  Forall (λ row, length row = Z.to_nat OLED_WIDTH_PX) lm.

(** The innermost loop of [update_lumamap]: the state is the LumaMap and
    the byte being shifted out. *)
Definition unpack_step (p c : nat) (st : lumamap_t * Z) (y : nat) : lumamap_t * Z :=
  let '(lm, px_col) := st in
  (lumamap_set lm (p * 8 + y) c (Z.land px_col 1), Z.shiftr px_col 1).

Definition unpack_column (b : ssd1306_t) (p : nat) (lm : lumamap_t) (c : nat) : lumamap_t :=
  fst (foldl (unpack_step p c) (lm, vram_at b p c) (seq 0 8)).

Definition unpack_page (b : ssd1306_t) (lm : lumamap_t) (p : nat) : lumamap_t :=
  foldl (unpack_column b p) lm (seq 0 SSD1306_VIRT_COLUMNS).

Definition update_lumamap (b : ssd1306_t) (lm : lumamap_t) : lumamap_t :=
  foldl (unpack_page b) lm (seq 0 SSD1306_VIRT_PAGES).

(** ** Colours and floating point

    [contrast_to_opacity] computes in [double] and returns a [float];
    [get_fg_colour] multiplies in [float] and converts to [uint8_t].  The
    values of the floating-point types are rationals; every operation is
    the exact operation followed by rounding to the precision of the type
    (to nearest, ties to even).  The exponent range is not modelled: all
    values met here lie in [2^-1, 2^8). *)

Module Float.
Local Open Scope Q_scope.

(** [floor (log2 q)] for [q > 0]. *)
Definition ilog2 (q : Q) : Z :=
  let e := (Z.log2 (Qnum q) - Z.log2 (Zpos (Qden q)))%Z in
  if Qle_bool (2 ^ e) q then e else (e - 1)%Z.

(** Round to a binary significand of [prec] bits. *)
Definition round (prec : Z) (q : Q) : Q :=
  if Qeq_bool q 0 then 0 else
  let a := Qabs q in
  let scale := 2 ^ (prec - 1 - ilog2 a) in
  let m := a * scale in
  let f := Qfloor m in
  let r := m - inject_Z f in
  let n := if Qeq_bool r (1 # 2)
           then (if Z.even f then f else f + 1)%Z
           else (if Qle_bool r (1 # 2) then f else f + 1)%Z in
  let v := inject_Z n / scale in
  if Qle_bool 0 q then v else - v.

Definition to_double : Q → Q := round 53.
Definition to_float : Q → Q := round 24.

(** Conversion of a floating value to an integer type truncates. *)
Definition truncate (q : Q) : Z :=
  if Qle_bool 0 q then Qfloor q else Qceiling q.
End Float.

(** [(uint8_t)(r)] for a floating [r]. *)
Definition uint8_of_float (r : Q) : Z := Float.truncate r mod 256.

(** An [unsigned] returned as [int]. *)
Definition int_of_unsigned (u : Z) : Z :=
  if u <? 2 ^ 31 then u else u - 2 ^ 32.

(** [RGB(r,g,b)] with channels already converted to [uint8_t]. *)
Definition RGB (r g b : Z) : Z :=
  Z.lor 4278190080 (Z.lor (Z.shiftl r 16) (Z.lor (Z.shiftl g 8) b)).

Definition BLACK : Z := RGB 0 0 0.

(** The channels of an ARGB pixel held in an [int]. *)
Definition alpha_of (px : Z) : Z := Z.land (Z.shiftr px 24) 255.
Definition red_of (px : Z) : Z := Z.land (Z.shiftr px 16) 255.
Definition green_of (px : Z) : Z := Z.land (Z.shiftr px 8) 255.
Definition blue_of (px : Z) : Z := Z.land px 255.

(** [255 * opacity] in [float]. *)
Definition scaled_channel (opacity : Q) : Q :=
  Float.to_float (255 * opacity)%Q.

Definition get_fg_colour (invert : bool) (opacity : Q) : Z :=
  int_of_unsigned
    (if invert then BLACK
     else RGB (uint8_of_float (scaled_channel opacity))
              (uint8_of_float (scaled_channel opacity))
              (uint8_of_float (scaled_channel opacity))).

Definition get_bg_colour (invert : bool) (opacity : Q) : Z :=
  if invert then get_fg_colour false opacity else int_of_unsigned BLACK.

Definition contrast_to_opacity (contrast : Z) : Q :=
  Float.to_float
    (Float.to_double
       (Float.to_double (inject_Z contrast / 512)%Q + (1 # 2))%Q).

(** ** The engine (simavr), as far as this module reads and writes it *)

Definition cpu_Limbo : Z := 0.
Definition cpu_Stopped : Z := 1.
Definition cpu_Running : Z := 2.
Definition cpu_Sleeping : Z := 3.
Definition cpu_Step : Z := 4.
Definition cpu_StepDone : Z := 5.
Definition cpu_Done : Z := 6.
Definition cpu_Crashed : Z := 7.

Record avr_t := Avr {
  cycle : Z;                       (* avr_cycle_count_t: uint64_t *)
  frequency : Z;                   (* uint32_t *)
  state : Z;                       (* cpu_* *)
  irq_value : gmap nat Z;          (* level of every allocated irq line *)
  irq_raised : list (nat * Z)      (* the calls of avr_raise_irq, oldest first *)
}.

Record avr_eeprom_t := Eeprom {
  eeprom : list Z;                 (* the bytes [uint8_t *eeprom] points to *)
  size : Z                         (* uint16_t *)
}.

(** The allocation the engine hands out for the atmega32u4: the core comes
    first and the EEPROM descriptor follows it. *)
Record mcu_t := Mcu { core : avr_t; mcu_eeprom : avr_eeprom_t }.

(** [avr->frequency * (avr_cycle_count_t)usec / 1000000] *)
Definition avr_usec_to_cycles (avr : avr_t) (usec : Z) : Z :=
  ((frequency avr * usec) mod 2 ^ 64) / 1000000.

(** [avr_raise_irq(irq, value)]; a NULL irq is ignored. *)
Definition avr_raise_irq (irq : option nat) (value : Z) (avr : avr_t) : avr_t :=
  match irq with
  | None => avr
  | Some i =>
      Avr (cycle avr) (frequency avr) (state avr)
          (<[i := value]> (irq_value avr))
          (irq_raised avr ++ [(i, value)])
  end.

(** ** The module state [mod_s] *)

Record arduboy_avr_mod_state := ModS {
  avr : option mcu_t;              (* NULL, or the engine with its contents *)
  ssd1306 : ssd1306_t;
  yield : bool;
  lumamap : lumamap_t;
  pixels : list Z                  (* the caller's buffer [pixels] points to *)
}.

Definition set_avr (a : option mcu_t) (s : arduboy_avr_mod_state) :=
  ModS a (ssd1306 s) (yield s) (lumamap s) (pixels s).
Definition set_ssd1306 (b : ssd1306_t) (s : arduboy_avr_mod_state) :=
  ModS (avr s) b (yield s) (lumamap s) (pixels s).
Definition set_yield (y : bool) (s : arduboy_avr_mod_state) :=
  ModS (avr s) (ssd1306 s) y (lumamap s) (pixels s).
Definition set_lumamap (lm : lumamap_t) (s : arduboy_avr_mod_state) :=
  ModS (avr s) (ssd1306 s) (yield s) lm (pixels s).
Definition set_pixels (px : list Z) (s : arduboy_avr_mod_state) :=
  ModS (avr s) (ssd1306 s) (yield s) (lumamap s) px.

(** ** The renderer *)

(** [for (int i = init; cond(i); i += step) body], bounded by [fuel]
    evaluations of the condition. *)
Fixpoint for_loop {S : Type} (fuel : nat) (cond : Z → bool) (step : Z)
    (body : Z → S → option S) (i : Z) (s : S) : option S :=
  match fuel with
  | O => None
  | S n =>
      if cond i then body i s ≫= for_loop n cond step body (i + step)
      else Some s
  end.

(** [i >= 0 && i < bound] *)
Definition in_screen (bound i : Z) : bool := (0 <=? i) && (i <? bound).

(** [*pixels++ = v]: the state is the offset of the moving pointer and the
    caller's buffer. *)
Definition store_pixel (v : Z) (cv : nat * list Z) : option (nat * list Z) :=
  let '(k, px) := cv in
  if decide (k < length px)%nat then Some (S k, <[k := v]> px) else None.

Definition render_row (lm : lumamap_t) (fg_color bg_color orig_x vx y : Z)
    (cv : nat * list Z) : option (nat * list Z) :=
  for_loop (S (Z.to_nat OLED_WIDTH_PX)) (in_screen OLED_WIDTH_PX) vx
    (λ x, store_pixel
            (if lumamap_get lm (Z.to_nat y) (Z.to_nat x) =? 0
             then bg_color else fg_color))
    orig_x cv.

Definition render_screen (b : ssd1306_t) (s : arduboy_avr_mod_state)
    : option arduboy_avr_mod_state :=
  if negb (ssd1306_get_flag b SSD1306_FLAG_DISPLAY_ON) then Some s
  else
    let '(orig_x, vx) :=
      if ssd1306_get_flag b SSD1306_FLAG_SEGMENT_REMAP_0
      then (OLED_WIDTH_PX - 1, -1) else (0, 1) in
    let '(orig_y, vy) :=
      if ssd1306_get_flag b SSD1306_FLAG_COM_SCAN_NORMAL
      then (OLED_HEIGHT_PX - 1, -1) else (0, 1) in
    let invert := ssd1306_get_flag b SSD1306_FLAG_DISPLAY_INVERTED in
    let opacity := contrast_to_opacity (contrast_register b) in
    let bg_color := get_bg_colour invert opacity in
    let fg_color := get_fg_colour invert opacity in
    cv ← for_loop (S (Z.to_nat OLED_HEIGHT_PX)) (in_screen OLED_HEIGHT_PX) vy
           (render_row (lumamap s) fg_color bg_color orig_x vx)
           orig_y (0%nat, pixels s);
    Some (set_pixels cv.2 s).

(** ** The display decoder *)

(** The notification does not use [irq] and [value]; [param] is the
    controller, which is the one of the module state. *)
Definition hook_ssd1306_write_data (s : arduboy_avr_mod_state)
    : arduboy_avr_mod_state :=
  let b := ssd1306 s in
  if di_pin b =? SSD1306_VIRT_DATA then
    if (page (cursor b) =? 0) && (column (cursor b) =? 0)
       && ssd1306_get_flag b SSD1306_FLAG_DIRTY
    then
      set_ssd1306 (ssd1306_set_flag b SSD1306_FLAG_DIRTY false)
        (set_lumamap (update_lumamap b (lumamap s)) s)
    else s
  else s.

(** ** The frame scheduler *)

(** The timer callback: the result is the module state and the cycle the
    engine is asked to fire the timer at next. *)
Definition update_screen (a : avr_t) (when : Z) (s : arduboy_avr_mod_state)
    : option (arduboy_avr_mod_state * Z) :=
  s' ← render_screen (ssd1306 s) s;
  Some (set_yield true s',
        (cycle a + avr_usec_to_cycles a REFRESH_PERIOD_US) mod 2 ^ 64).

(** ** The input controller *)

Record button_info := Btn {
  btn_id : Z;
  irq : option nat;                (* NULL until setup allocates the line *)
  name : string;
  port_name : ascii;
  port_idx : Z;
  pressed : bool
}.

(** The initialiser of the static array. *)
Definition buttons : list button_info :=
  [ Btn BTN_UP None "btn.up" "F"%char 7 false;
    Btn BTN_DOWN None "btn.down" "F"%char 4 false;
    Btn BTN_LEFT None "btn.left" "F"%char 5 false;
    Btn BTN_RIGHT None "btn.right" "F"%char 6 false;
    Btn BTN_A None "btn.a" "E"%char 6 false;
    Btn BTN_B None "btn.b" "B"%char 4 false ].

Definition set_pressed (p : bool) (b : button_info) : button_info :=
  Btn (btn_id b) (irq b) (name b) (port_name b) (port_idx b) p.

(** [!pressed] as the [uint32_t] handed to [avr_raise_irq]. *)
Definition line_level (pressed : bool) : Z := if pressed then 0 else 1.

(** The state is the static array [buttons] and [mod_s].  [btn_e] has an
    unsigned underlying type: 0 <= btn_e.  Indexing [buttons] outside the
    array has no defined result ([None]). *)
Definition arduboy_avr_button_event (btn_e : Z) (pressed_now : bool)
    (w : list button_info * arduboy_avr_mod_state)
    : option (list button_info * arduboy_avr_mod_state) :=
  let '(btns, s) := w in
  match avr s with
  | None => Some w
  | Some m =>
      if btn_e <? BTN_COUNT then
        btn ← btns !! Z.to_nat btn_e;
        if negb (eqb (pressed btn) pressed_now) then
          Some (<[Z.to_nat btn_e := set_pressed pressed_now btn]> btns,
                set_avr
                  (Some (Mcu (avr_raise_irq (irq btn) (line_level pressed_now)
                                            (core m))
                             (mcu_eeprom m)))
                  s)
        else Some w
      else Some w
  end.

(** ** The persistent-memory accessors *)

(** What a pointer to the mcu layout can hold in this module: the
    engine's allocation (the value of [mod_s.avr]) or the address of the
    field [mod_s.avr] itself, which is the start of [mod_s]. *)
Inductive mcu_pointer := engine_allocation | address_of_mod_s_avr.

(** [mcu->eeprom]: the descriptor that follows the core in the engine's
    allocation.  [sizeof (avr_t)] bytes past the start of [mod_s] there is
    no such descriptor (the module's display state and LumaMap, or nothing
    of the module at all), so the read has no defined result. *)
Definition mcu_eeprom_at (s : arduboy_avr_mod_state) (mcu : mcu_pointer)
    : option avr_eeprom_t :=
  match mcu with
  | engine_allocation => mcu_eeprom <$> avr s
  | address_of_mod_s_avr => None
  end.

(** [memcpy (dst, src, n)] on the bytes the two pointers point to. *)
Definition memcpy (dst src : list Z) (n : Z) : option (list Z) :=
  if decide (Z.to_nat n ≤ length dst ∧ Z.to_nat n ≤ length src)%nat
  then Some (take (Z.to_nat n) src ++ drop (Z.to_nat n) dst)
  else None.

(** The body of the getter after the NULL test, for a given operand of the
    cast. *)
Definition get_eeprom_via (mcu : mcu_pointer) (s : arduboy_avr_mod_state)
    (p_array : list Z) : option (bool * list Z) :=
  ee ← mcu_eeprom_at s mcu;
  out ← memcpy p_array (eeprom ee) (size ee);
  Some (true, out).

Definition set_eeprom_via (mcu : mcu_pointer) (s : arduboy_avr_mod_state)
    (p_array : list Z) : option (bool * arduboy_avr_mod_state) :=
  ee ← mcu_eeprom_at s mcu;
  bytes ← memcpy (eeprom ee) p_array (size ee);
  m ← avr s;
  Some (true, set_avr (Some (Mcu (core m) (Eeprom bytes (size ee)))) s).

(** The operand of the cast to the mcu layout is [&mod_s.avr]. *)
Definition arduboy_avr_get_eeprom (s : arduboy_avr_mod_state)
    (p_array : list Z) : option (bool * list Z) :=
  match avr s with
  | None => Some (false, p_array)
  | Some _ => get_eeprom_via address_of_mod_s_avr s p_array
  end.

Definition arduboy_avr_set_eeprom (s : arduboy_avr_mod_state)
    (p_array : list Z) : option (bool * arduboy_avr_mod_state) :=
  match avr s with
  | None => Some (false, s)
  | Some _ => set_eeprom_via address_of_mod_s_avr s p_array
  end.

(** ** The execution loop *)

Definition terminal (st : Z) : bool := (st =? cpu_Done) || (st =? cpu_Crashed).

Section Loop.

(** [avr_run (avr)]: one scheduling quantum of the engine.  It changes the
    engine and, through the callbacks registered at setup, the module
    state; the second component is the state it returns. *)
Variable avr_run : arduboy_avr_mod_state → arduboy_avr_mod_state * Z.

(** [while (!mod_s.yield) { ... }] *)
Fixpoint burst (fuel : nat) (s : arduboy_avr_mod_state)
    : option (bool * arduboy_avr_mod_state) :=
  if yield s then Some (true, s)
  else
    match fuel with
    | O => None
    | S n =>
        let '(s', st) := avr_run s in
        if terminal st then Some (false, s') else burst n s'
    end.

Definition arduboy_avr_loop (fuel : nat) (px : list Z)
    (s : arduboy_avr_mod_state) : option (bool * arduboy_avr_mod_state) :=
  match avr s with
  | None => Some (false, s)
  | Some _ => burst fuel (set_pixels px (set_yield false s))
  end.

(** The states the engine reported during the burst, oldest first. *)
Fixpoint reported (fuel : nat) (s : arduboy_avr_mod_state) : list Z :=
  if yield s then []
  else
    match fuel with
    | O => []
    | S n =>
        let '(s', st) := avr_run s in
        st :: (if terminal st then [] else reported n s')
    end.

End Loop.

Definition arduboy_avr_teardown (s : arduboy_avr_mod_state) : arduboy_avr_mod_state :=
  match avr s with
  | Some _ => set_avr None s
  | None => s
  end.

(** ** Notions the statements use *)

(** The luma bit the snapshot puts in cell (r, c). *)
Definition luma_bit (b : ssd1306_t) (r c : nat) : Z :=
  Z.b2z (Z.testbit (vram_at b (r / 8) c) (Z.of_nat (r mod 8))).

(** The notification the decoder acts on: data channel, cursor at the frame
    origin, dirty flag set. *)
Definition frame_boundary (b : ssd1306_t) : bool :=
  (di_pin b =? SSD1306_VIRT_DATA)
  && (page (cursor b) =? 0) && (column (cursor b) =? 0)
  && ssd1306_get_flag b SSD1306_FLAG_DIRTY.

(** A write notification: the controller, in the state [b] its own protocol
    handling has reached, calls the hook. *)
Definition notify (s : arduboy_avr_mod_state) (b : ssd1306_t) : arduboy_avr_mod_state :=
  hook_ssd1306_write_data (set_ssd1306 b s).

Definition notifications (bs : list ssd1306_t) (s : arduboy_avr_mod_state)
    : arduboy_avr_mod_state :=
  foldl notify s bs.

(** The whole LumaMap holds the unpacked display memory of [b]. *)
Definition is_snapshot (b : ssd1306_t) (lm : lumamap_t) : Prop :=
  wf_lumamap lm ∧
  ∀ r c, (r < Z.to_nat OLED_HEIGHT_PX)%nat → (c < Z.to_nat OLED_WIDTH_PX)%nat →
         lumamap_get lm r c = luma_bit b r c.

(** The state the module works on: the static array [buttons] and [mod_s]. *)
Definition world : Type := list button_info * arduboy_avr_mod_state.

(** One step of the module: a call of one of its functions by the caller or
    by the engine, or the controller moving on by itself (its protocol
    handling changes the controller only). *)
Inductive module_step : world → world → Prop :=
  | step_notification btns s :
      module_step (btns, s) (btns, hook_ssd1306_write_data s)
  | step_timer btns s a when s' next :
      update_screen a when s = Some (s', next) →
      module_step (btns, s) (btns, s')
  | step_button btns s btn_e p w' :
      arduboy_avr_button_event btn_e p (btns, s) = Some w' →
      module_step (btns, s) w'
  | step_set_eeprom btns s bytes r s' :
      arduboy_avr_set_eeprom s bytes = Some (r, s') →
      module_step (btns, s) (btns, s')
  | step_loop_entry btns s px :
      module_step (btns, s) (btns, set_pixels px (set_yield false s))
  | step_teardown btns s :
      module_step (btns, s) (btns, arduboy_avr_teardown s)
  | step_controller btns s b :
      module_step (btns, s) (btns, set_ssd1306 b s).

(** A blank 128 x 64 LumaMap, as [memset] leaves it at setup. *)
Definition blank_lumamap : lumamap_t :=
  replicate (Z.to_nat OLED_HEIGHT_PX) (replicate (Z.to_nat OLED_WIDTH_PX) 0).

(** A loop body run over an explicit list of index values. *)
Fixpoint run_over {S : Type} (body : Z → S → option S) (l : list Z) (s : S)
    : option S :=
  match l with
  | [] => Some s
  | x :: l => body x s ≫= run_over body l
  end.

(** The order in which a loop of the renderer visits [0, bound): downwards
    when the mirroring flag of its axis is set. *)
Definition scan_order (bound : Z) (mirrored : bool) : list Z :=
  if mirrored then reverse (seqZ 0 bound) else seqZ 0 bound.

(** The LumaMap coordinate shown at position [k] of an axis of size
    [bound]. *)
Definition mirror (bound : Z) (mirrored : bool) (k : Z) : Z :=
  if mirrored then bound - 1 - k else k.

(** The colour the renderer gives a luma value. *)
Definition pixel_colour (b : ssd1306_t) (luma : Z) : Z :=
  let invert := ssd1306_get_flag b SSD1306_FLAG_DISPLAY_INVERTED in
  let opacity := contrast_to_opacity (contrast_register b) in
  if luma =? 0 then get_bg_colour invert opacity
  else get_fg_colour invert opacity.

(** What the colour claims say about one contrast value, as a test that
    can be run: the opacity is exactly [c/512 + 1/2], the foreground without
    invert is an opaque gray whose three channels are [255 * opacity] cut to
    an integer, and the background with invert is that same gray. *)
Definition colours_as_specified (c : Z) : bool :=
  let opacity := contrast_to_opacity c in
  let exact := (inject_Z c / 512 + (1 # 2))%Q in
  let gray := Qfloor (255 * exact)%Q in
  let fg := get_fg_colour false opacity in
  Qeq_bool opacity exact
  && (red_of fg =? gray) && (green_of fg =? gray) && (blue_of fg =? gray)
  && (alpha_of fg =? 255)
  && (get_bg_colour true opacity =? fg).

(** The frame period in engine cycles, at the engine's clock frequency. *)
Definition frame_period (a : avr_t) : Z := avr_usec_to_cycles a REFRESH_PERIOD_US.

(** ** States used to run the definitions *)

(** A controller showing an all-white frame, with the given flag word. *)
Definition white_controller (flag_word : Z) : ssd1306_t :=
  Ssd (replicate 8 (replicate 128 255)) flag_word (Cursor 0 0) SSD1306_VIRT_DATA 127.

(** An engine at 16 MHz, at the given cycle and in the given state, whose
    six button lines are pulled up as setup leaves them, and an EEPROM of
    1024 bytes. *)
Definition engine_at (cyc st : Z) : mcu_t :=
  Mcu (Avr cyc MHZ_16 st
         (list_to_map [(0%nat, 1); (1%nat, 1); (2%nat, 1); (3%nat, 1); (4%nat, 1);
                       (5%nat, 1)] : gmap nat Z) [])
      (Eeprom (replicate 1024 255) 1024).

(** The static array after setup has allocated one line per button. *)
Definition buttons_wired : list button_info :=
  imap (λ i b, Btn (btn_id b) (Some i) (name b) (port_name b) (port_idx b) (pressed b))
       buttons.

Definition session (cyc st flag_word : Z) (lm : lumamap_t) (px : list Z)
    : arduboy_avr_mod_state :=
  ModS (Some (engine_at cyc st)) (white_controller flag_word) false lm px.

(** An engine quantum for running the loop: a stopped engine does nothing
    and reports its state; a running one fires the frame timer. *)
Definition timer_every_quantum (s : arduboy_avr_mod_state)
    : arduboy_avr_mod_state * Z :=
  match avr s with
  | None => (s, cpu_Limbo)
  | Some m =>
      if terminal (state (core m)) then (s, state (core m))
      else match update_screen (core m) (cycle (core m)) s with
           | Some (s', _) => (s', state (core m))
           | None => (s, cpu_Crashed)
           end
  end.

(** A sequence of button events, stopping at the first without a defined
    result. *)
Fixpoint button_events (evs : list (Z * bool)) (w : world) : option world :=
  match evs with
  | [] => Some w
  | (btn_e, p) :: evs => arduboy_avr_button_event btn_e p w ≫= button_events evs
  end.

(** The calls of [avr_raise_irq] the engine has seen, oldest first. *)
Definition raised (w : world) : list (nat * Z) :=
  from_option (λ m, irq_raised (core m)) [] (avr w.2).

(** The level of an irq line. *)
Definition line (w : world) (i : nat) : option Z :=
  avr w.2 ≫= λ m, irq_value (core m) !! i.

(** The stored pressed state of a button. *)
Definition stored (w : world) (btn_e : Z) : option bool :=
  pressed <$> w.1 !! Z.to_nat btn_e.

(** ** Further notions *)

(** The byte that packs the eight luma cells of page [p] at column [c],
    least significant bit at the top. *)
Definition pack_column (lm : lumamap_t) (p c : nat) : Z :=
  foldr (λ y acc, lumamap_get lm (p * 8 + y) c + 2 * acc) 0 (seq 0 8).

(** Every cell is a luma bit. *)
Definition binary_lumamap (lm : lumamap_t) : Prop :=
  ∀ r c, lumamap_get lm r c = 0 ∨ lumamap_get lm r c = 1.

(** States the module reaches from a given one. *)
Inductive module_steps : world → world → Prop :=
  | steps_none w : module_steps w w
  | steps_more w1 w2 w3 :
      module_steps w1 w2 → module_step w2 w3 → module_steps w1 w3.

(** The eight bits of a byte, summed back. *)
Definition byte_of_bits (v : Z) : Z :=
  foldr (λ y acc, Z.b2z (Z.testbit v (Z.of_nat y)) + 2 * acc) 0 (seq 0 8).

(** The number of pixels of a frame. *)
Definition frame_pixels : nat := Z.to_nat (OLED_WIDTH_PX * OLED_HEIGHT_PX).

(** The two colours of a frame differ and are opaque, for one contrast
    value and both settings of invert. *)
Definition colours_visible (c : Z) : bool :=
  let opacity := contrast_to_opacity c in
  forallb (λ invert,
             negb (get_fg_colour invert opacity =? get_bg_colour invert opacity)
             && (alpha_of (get_fg_colour invert opacity) =? 255)
             && (alpha_of (get_bg_colour invert opacity) =? 255))
          [false; true].

(** The controller with the invert flag toggled. *)
Definition toggle_invert (b : ssd1306_t) : ssd1306_t :=
  ssd1306_set_flag b SSD1306_FLAG_DISPLAY_INVERTED
    (negb (ssd1306_get_flag b SSD1306_FLAG_DISPLAY_INVERTED)).

(** Every wired button's line is at the level of its stored state: high when
    released, low when pressed. *)
Definition lines_follow_buttons (w : world) : Prop :=
  ∀ k btn i, w.1 !! k = Some btn → irq btn = Some i →
             line w i = Some (line_level (pressed btn)).

(** No two buttons share a line. *)
Definition lines_distinct (btns : list button_info) : Prop :=
  ∀ k1 k2 b1 b2 i, btns !! k1 = Some b1 → btns !! k2 = Some b2 →
                   irq b1 = Some i → irq b2 = Some i → k1 = k2.

(** The values of a sequence that differ from the one before them, the
    first being compared with [p0]. *)
Fixpoint changes (p0 : bool) (ps : list bool) : list bool :=
  match ps with
  | [] => []
  | p :: ps => if eqb p0 p then changes p0 ps else p :: changes p ps
  end.

(** ** Setup *)

(** The image [read_ihex_file] returns: the bytes, their number and the
    address they are to be loaded at. *)
Record firmware := Firmware { boot : list Z; boot_size : Z; boot_base : Z }.

(** The fields of the engine that only setup writes. *)
Record avr_boot_t := Boot {
  flash : list Z;                  (* uint8_t *flash *)
  flashend : Z;
  pc : Z;                          (* avr_flashaddr_t *)
  codeend : Z;
  log : Z;
  run_cycle_limit : Z              (* avr_cycle_count_t *)
}.

Definition LOG_DEBUG : Z := 5.

(** [memcpy (dst + at, src, n)] *)
Definition memcpy_at (dst : list Z) (at_ : Z) (src : list Z) (n : Z)
    : option (list Z) :=
  if decide (0 ≤ at_ ∧ 0 ≤ n
             ∧ (Z.to_nat at_ + Z.to_nat n ≤ length dst)%nat
             ∧ (Z.to_nat n ≤ length src)%nat)
  then Some (take (Z.to_nat at_) dst ++ take (Z.to_nat n) src
             ++ drop (Z.to_nat at_ + Z.to_nat n) dst)
  else None.

(** [avr_alloc_irq]: a line the pool does not have yet, at level 0. *)
Definition avr_alloc_irq (a : avr_t) : nat * avr_t :=
  let i := fresh (dom (irq_value a)) in
  (i, Avr (cycle a) (frequency a) (state a) (<[i := 0]> (irq_value a))
          (irq_raised a)).

Definition set_irq (i : option nat) (b : button_info) : button_info :=
  Btn (btn_id b) i (name b) (port_name b) (port_idx b) (pressed b).

Definition set_frequency (f : Z) (a : avr_t) : avr_t :=
  Avr (cycle a) f (state a) (irq_value a) (irq_raised a).

(** The body of the loop that wires the buttons: allocate the line, connect
    it to the pin of the port (which the model does not carry) and pull it
    up. *)
Definition wire_button (btn_idx : nat) (st : list button_info * avr_t)
    : option (list button_info * avr_t) :=
  let '(btns, a) := st in
  binfo ← btns !! btn_idx;
  let '(i, a1) := avr_alloc_irq a in
  Some (<[btn_idx := set_irq (Some i) binfo]> btns,
        avr_raise_irq (Some i) 1 a1).

Fixpoint wire_buttons (idxs : list nat) (st : list button_info * avr_t)
    : option (list button_info * avr_t) :=
  match idxs with
  | [] => Some st
  | k :: idxs => wire_button k st ≫= wire_buttons idxs
  end.

Section Setup.

(** What the engine library and the image loader return: the engine made
    for the given name and initialised, or NULL; the image read from the
    given path, or NULL; the controller as [ssd1306_init] and
    [ssd1306_connect] leave it. *)
Variable avr_make_mcu_by_name : string → option (mcu_t * avr_boot_t).
Variable read_ihex_file : string → option firmware.
Variable ssd1306_init : ssd1306_t.

(** The result is the value returned, the static array and [mod_s], and the
    boot fields of the engine when one is kept. *)
Definition arduboy_avr_setup (hex_file_path : string) (cpu_freq : Z) (w : world)
    : option (Z * world * option avr_boot_t) :=
  let '(btns, s0) := w in
  let s := set_avr None s0 in
  match avr_make_mcu_by_name "atmega32u4" with
  | None => Some (-1, (btns, s), None)
  | Some (m, bt) =>
      match read_ihex_file hex_file_path with
      | None => Some (-1, (btns, s), None)
      | Some fw =>
          flash' ← memcpy_at (flash bt) (boot_base fw) (boot fw) (boot_size fw);
          let a := set_frequency (cpu_freq mod 2 ^ 32) (core m) in
          let bt' := Boot flash' (flashend bt) (boot_base fw) (flashend bt)
                          LOG_DEBUG
                          (avr_usec_to_cycles a (REFRESH_PERIOD_US * 2)) in
          let s := set_lumamap blank_lumamap (set_ssd1306 ssd1306_init s) in
          '(btns', a') ← wire_buttons (seq 0 (Z.to_nat BTN_COUNT)) (btns, a);
          Some (0, (btns', set_avr (Some (Mcu a' (mcu_eeprom m))) s), Some bt')
      end
  end.

End Setup.

(** An engine as the library makes it, with no lines yet; its flash is cut
    down to 256 erased bytes to keep the states small. *)
Definition new_engine : mcu_t * avr_boot_t :=
  (Mcu (Avr 0 0 cpu_Limbo ∅ []) (Eeprom (replicate 1024 255) 1024),
   Boot (replicate 256 255) 255 0 0 0 0).

(** A small image loaded at address 0. *)
Definition blink_image : firmware := Firmware [12; 148; 86; 0] 4 0.

Definition module_at_start : world :=
  (buttons, ModS None (white_controller 0) false blank_lumamap []).

(** What wiring the buttons [k, k + n) makes of the array and the engine. *)
Definition wired (k n : nat) (btns : list button_info) (a : avr_t)
    (btns' : list button_info) (a' : avr_t) : Prop :=
  length btns' = length btns ∧
  cycle a' = cycle a ∧ frequency a' = frequency a ∧ state a' = state a ∧
  (∀ i, i ∈ dom (irq_value a) → irq_value a' !! i = irq_value a !! i) ∧
  (∀ j b', btns' !! j = Some b' →
     ∃ b0, btns !! j = Some b0 ∧ pressed b' = pressed b0 ∧
           ((j < k ∨ k + n ≤ j)%nat → b' = b0) ∧
           ((k ≤ j < k + n)%nat →
              ∃ i, irq b' = Some i ∧ (i ∉ dom (irq_value a)) ∧
                   irq_value a' !! i = Some 1)) ∧
  (∀ j1 j2 b1 b2 i, (k ≤ j1 < k + n)%nat → (k ≤ j2 < k + n)%nat →
     btns' !! j1 = Some b1 → btns' !! j2 = Some b2 →
     irq b1 = Some i → irq b2 = Some i → j1 = j2).

(** * Properties *)

(** ** The LumaMap as an array *)

Section Lumamap.
Implicit Types (lm : lumamap_t) (r c : nat) (v : Z).

Lemma lumamap_set_wf lm r c v : wf_lumamap lm → wf_lumamap (lumamap_set lm r c v).
Proof.
  intros [Hlen Hrows]. split.
  - unfold lumamap_set. by rewrite length_alter.
  - unfold lumamap_set. apply Forall_lookup. intros i row Hi.
    destruct (decide (r = i)) as [->|Hne].
    + rewrite list_lookup_alter_eq in Hi.
      destruct (lm !! i) as [row0|] eqn:E; simplify_eq/=.
      rewrite length_insert. eapply Forall_lookup in Hrows; eauto.
    + rewrite list_lookup_alter_ne in Hi by done.
      eapply Forall_lookup in Hrows; eauto.
Qed.

Lemma lumamap_get_set lm r c v r' c' :
  wf_lumamap lm →
  (r < Z.to_nat OLED_HEIGHT_PX)%nat → (c < Z.to_nat OLED_WIDTH_PX)%nat →
  lumamap_get (lumamap_set lm r c v) r' c' =
    if decide (r' = r ∧ c' = c) then v else lumamap_get lm r' c'.
Proof.
  intros [Hlen Hrows] Hr Hc. unfold lumamap_get, lumamap_set.
  destruct (decide (r = r')) as [<-|Hne].
  - rewrite list_lookup_alter_eq.
    destruct (lookup_lt_is_Some_2 lm r) as [row Hrow]; [lia|].
    rewrite Hrow. simpl.
    assert (length row = Z.to_nat OLED_WIDTH_PX) as Hl
      by (eapply Forall_lookup in Hrows; eauto).
    destruct (decide (c = c')) as [<-|Hc'].
    + rewrite list_lookup_insert_eq by lia.
      rewrite decide_True; done.
    + rewrite list_lookup_insert_ne by done.
      rewrite decide_False; [done | intros [? ?]; congruence].
  - rewrite list_lookup_alter_ne by done.
    rewrite decide_False; [done | intros [? ?]; congruence].
Qed.

(** Two LumaMaps with the same cells are the same array. *)
Lemma lumamap_ext lm1 lm2 :
  wf_lumamap lm1 → wf_lumamap lm2 →
  (∀ r c, (r < Z.to_nat OLED_HEIGHT_PX)%nat → (c < Z.to_nat OLED_WIDTH_PX)%nat →
          lumamap_get lm1 r c = lumamap_get lm2 r c) →
  lm1 = lm2.
Proof.
  intros [Hl1 Hr1] [Hl2 Hr2] Hget. apply list_eq. intros r.
  destruct (decide (r < Z.to_nat OLED_HEIGHT_PX)%nat) as [Hr|Hr].
  - destruct (lookup_lt_is_Some_2 lm1 r) as [row1 E1]; [lia|].
    destruct (lookup_lt_is_Some_2 lm2 r) as [row2 E2]; [lia|].
    rewrite E1, E2. f_equal. apply list_eq. intros c.
    assert (length row1 = Z.to_nat OLED_WIDTH_PX) as L1
      by (eapply Forall_lookup in Hr1; eauto).
    assert (length row2 = Z.to_nat OLED_WIDTH_PX) as L2
      by (eapply Forall_lookup in Hr2; eauto).
    destruct (decide (c < Z.to_nat OLED_WIDTH_PX)%nat) as [Hc|Hc].
    + specialize (Hget r c Hr Hc). unfold lumamap_get in Hget.
      rewrite E1, E2 in Hget. simpl in Hget.
      destruct (lookup_lt_is_Some_2 row1 c) as [x1 X1]; [lia|].
      destruct (lookup_lt_is_Some_2 row2 c) as [x2 X2]; [lia|].
      rewrite X1, X2 in Hget |- *. simpl in Hget. by subst.
    + rewrite !lookup_ge_None_2 by lia. done.
  - rewrite !lookup_ge_None_2 by lia. done.
Qed.
End Lumamap.

(** ** The decoder's loops *)

Lemma land_1_testbit (x : Z) : Z.land x 1 = Z.b2z (Z.testbit x 0).
Proof.
  change 1 with (Z.ones 1). rewrite Z.land_ones by lia.
  symmetry. apply Z.bit0_mod.
Qed.

Lemma shiftr_land_1 (x : Z) (k : nat) :
  Z.land (Z.shiftr x (Z.of_nat k)) 1 = Z.b2z (Z.testbit x (Z.of_nat k)).
Proof. rewrite land_1_testbit, Z.shiftr_spec by lia. done. Qed.

(** A loop over [k, k + n) whose body rewrites the cells selected by [hit]
    with [val] and leaves the others alone. *)
Lemma foldl_seq_cells (f : lumamap_t → nat → lumamap_t)
    (hit : nat → nat → nat → bool) (val : nat → nat → Z) (bound : nat) :
  (∀ lm i, (i < bound)%nat → wf_lumamap lm → wf_lumamap (f lm i)) →
  (∀ lm i r c, (i < bound)%nat → wf_lumamap lm →
     lumamap_get (f lm i) r c = if hit i r c then val r c else lumamap_get lm r c) →
  ∀ n k lm, (k + n ≤ bound)%nat → wf_lumamap lm →
    wf_lumamap (foldl f lm (seq k n)) ∧
    ∀ r c, lumamap_get (foldl f lm (seq k n)) r c =
           if existsb (λ i, hit i r c) (seq k n) then val r c
           else lumamap_get lm r c.
Proof.
  intros Hwf Hget. induction n as [|n IH]; intros k lm Hk Hlm.
  - simpl. done.
  - cbn [seq foldl existsb].
    destruct (IH (S k) (f lm k)) as [Hwf' Hget']; [lia | apply Hwf; [lia | done] |].
    split; [done|]. intros r c. rewrite Hget', Hget by (done || lia).
    destruct (hit k r c); simpl; [|done].
    by destruct (existsb _ _).
Qed.

Section Decoder.
Variable b : ssd1306_t.
Implicit Types (lm : lumamap_t) (p r c : nat).

Lemma unpack_steps p c n : ∀ k lm (v : Z),
  wf_lumamap lm → (p * 8 + k + n ≤ Z.to_nat OLED_HEIGHT_PX)%nat →
  (c < Z.to_nat OLED_WIDTH_PX)%nat →
  wf_lumamap (foldl (unpack_step p c) (lm, v) (seq k n)).1 ∧
  ∀ r c', lumamap_get (foldl (unpack_step p c) (lm, v) (seq k n)).1 r c' =
    if decide (c' = c ∧ p * 8 + k ≤ r < p * 8 + k + n)%nat
    then Z.land (Z.shiftr v (Z.of_nat (r - (p * 8 + k)))) 1
    else lumamap_get lm r c'.
Proof.
  induction n as [|n IH]; intros k lm v Hlm Hr Hc.
  - simpl. split; [done|]. intros r c'. rewrite decide_False; [done | lia].
  - cbn [seq foldl unpack_step].
    destruct (IH (S k) (lumamap_set lm (p * 8 + k) c (Z.land v 1)) (Z.shiftr v 1))
      as [Hwf' Hget']; [by apply lumamap_set_wf | lia | done |].
    split; [done|]. intros r c'. rewrite Hget'.
    rewrite lumamap_get_set by (done || lia).
    destruct (decide (r = p * 8 + k)%nat) as [->|Hne].
    + rewrite decide_False by lia.
      destruct (decide (c' = c)) as [->|Hc'].
      * rewrite !decide_True by lia. replace (p * 8 + k - (p * 8 + k))%nat with 0%nat by lia.
        done.
      * rewrite !decide_False by lia. done.
    + rewrite (decide_False (P := (r = _ ∧ _))) by lia.
      destruct (decide (c' = c ∧ p * 8 + S k ≤ r < p * 8 + S k + n)%nat) as [H|H].
      * rewrite decide_True by lia. rewrite Z.shiftr_shiftr by lia.
        do 2 f_equal. lia.
      * rewrite decide_False by lia. done.
Qed.

Lemma unpack_column_wf lm p c :
  (p < SSD1306_VIRT_PAGES)%nat → (c < SSD1306_VIRT_COLUMNS)%nat →
  wf_lumamap lm → wf_lumamap (unpack_column b p lm c).
Proof.
  intros Hp Hc H. unfold unpack_column, SSD1306_VIRT_PAGES, SSD1306_VIRT_COLUMNS in *.
  apply unpack_steps; [done | | ]; change (Z.to_nat OLED_HEIGHT_PX) with 64%nat;
    change (Z.to_nat OLED_WIDTH_PX) with 128%nat; lia.
Qed.

Lemma unpack_column_get lm p c r c' :
  (p < SSD1306_VIRT_PAGES)%nat → (c < SSD1306_VIRT_COLUMNS)%nat → wf_lumamap lm →
  lumamap_get (unpack_column b p lm c) r c' =
    if (r / 8 =? p)%nat && (c' =? c)%nat then luma_bit b r c'
    else lumamap_get lm r c'.
Proof.
  intros Hp Hc Hwf. unfold unpack_column, SSD1306_VIRT_PAGES, SSD1306_VIRT_COLUMNS in *.
  destruct (unpack_steps p c 8 0%nat lm (vram_at b p c)) as [_ ->];
    [done | change (Z.to_nat OLED_HEIGHT_PX) with 64%nat; lia
     | change (Z.to_nat OLED_WIDTH_PX) with 128%nat; lia |].
  pose proof (Nat.div_mod_eq r 8) as Hdm.
  pose proof (Nat.mod_upper_bound r 8 ltac:(lia)) as Hm.
  destruct (Nat.eqb_spec (r / 8) p) as [Hrp|Hrp];
    destruct (Nat.eqb_spec c' c) as [Hcc|Hcc]; simpl.
  - rewrite decide_True by lia. subst c' p. unfold luma_bit.
    replace (r - (r / 8 * 8 + 0))%nat with (r mod 8)%nat by lia.
    apply shiftr_land_1.
  - rewrite decide_False by lia. done.
  - rewrite decide_False; [done|]. intros [_ H]. apply Hrp. 
    symmetry. apply (Nat.div_unique r 8 p (r - p * 8)); lia.
  - rewrite decide_False by lia. done.
Qed.

Lemma unpack_page_cells lm p :
  (p < SSD1306_VIRT_PAGES)%nat → wf_lumamap lm →
  wf_lumamap (unpack_page b lm p) ∧
  ∀ r c, lumamap_get (unpack_page b lm p) r c =
    if (r / 8 =? p)%nat && (c <? SSD1306_VIRT_COLUMNS)%nat then luma_bit b r c
    else lumamap_get lm r c.
Proof.
  intros Hp Hwf. unfold unpack_page.
  destruct (foldl_seq_cells (unpack_column b p)
              (λ i r c, (r / 8 =? p)%nat && (c =? i)%nat) (luma_bit b)
              SSD1306_VIRT_COLUMNS) with (n := SSD1306_VIRT_COLUMNS) (k := 0%nat) (lm := lm)
    as [Hwf' Hget]; [ | | lia | done | ].
  - intros; by apply unpack_column_wf.
  - intros; by apply unpack_column_get.
  - split; [done|]. intros r c. rewrite Hget. 
    replace (existsb _ _) with ((r / 8 =? p)%nat && (c <? SSD1306_VIRT_COLUMNS)%nat); [done|].
    apply eq_true_iff_eq. rewrite andb_true_iff, existsb_exists.
    rewrite Nat.eqb_eq, Nat.ltb_lt. split.
    + intros [? ?]. exists c. rewrite in_seq, andb_true_iff, !Nat.eqb_eq. lia.
    + intros (i & Hi & H). rewrite in_seq in Hi. 
      rewrite andb_true_iff, !Nat.eqb_eq in H. lia.
Qed.

Lemma update_lumamap_cells lm :
  wf_lumamap lm →
  wf_lumamap (update_lumamap b lm) ∧
  ∀ r c, lumamap_get (update_lumamap b lm) r c =
    if (r <? Z.to_nat OLED_HEIGHT_PX)%nat && (c <? Z.to_nat OLED_WIDTH_PX)%nat
    then luma_bit b r c else lumamap_get lm r c.
Proof.
  intros Hwf. unfold update_lumamap.
  destruct (foldl_seq_cells (unpack_page b)
              (λ i r c, (r / 8 =? i)%nat && (c <? SSD1306_VIRT_COLUMNS)%nat) (luma_bit b)
              SSD1306_VIRT_PAGES) with (n := SSD1306_VIRT_PAGES) (k := 0%nat) (lm := lm)
    as [Hwf' Hget]; [ | | lia | done | ].
  - intros; by apply unpack_page_cells.
  - intros; by apply unpack_page_cells.
  - split; [done|]. intros r c. rewrite Hget.
    replace (existsb _ _) with
      ((r <? Z.to_nat OLED_HEIGHT_PX)%nat && (c <? Z.to_nat OLED_WIDTH_PX)%nat); [done|].
    apply eq_true_iff_eq. rewrite andb_true_iff, existsb_exists.
    rewrite !Nat.ltb_lt. change (Z.to_nat OLED_HEIGHT_PX) with 64%nat.
    change (Z.to_nat OLED_WIDTH_PX) with 128%nat.
    unfold SSD1306_VIRT_PAGES, SSD1306_VIRT_COLUMNS.
    pose proof (Nat.div_mod_eq r 8) as Hdm.
    pose proof (Nat.mod_upper_bound r 8 ltac:(lia)) as Hm.
    split.
    + intros [? ?]. exists (r / 8)%nat.
      rewrite in_seq, andb_true_iff, Nat.eqb_eq, Nat.ltb_lt. lia.
    + intros (i & Hi & H). rewrite in_seq in Hi.
      rewrite andb_true_iff, Nat.eqb_eq, Nat.ltb_lt in H. lia.
Qed.
End Decoder.

(** ** The controller's flag word *)

Lemma ssd1306_get_flag_testbit (b : ssd1306_t) (bit : Z) :
  0 ≤ bit → ssd1306_get_flag b bit = Z.testbit (flags b) bit.
Proof.
  intros Hbit. unfold ssd1306_get_flag. rewrite Z.shiftl_1_l.
  destruct (Z.testbit (flags b) bit) eqn:E.
  - destruct (Z.eqb_spec (Z.land (flags b) (2 ^ bit)) 0) as [H0|]; [|done].
    exfalso. assert (Z.testbit (Z.land (flags b) (2 ^ bit)) bit = true) as Ht.
    { rewrite Z.land_spec, E, Z.pow2_bits_true by lia. done. }
    rewrite H0, Z.bits_0 in Ht. done.
  - replace (Z.land (flags b) (2 ^ bit)) with 0; [done|].
    symmetry. apply Z.bits_inj'. intros n Hn.
    rewrite Z.land_spec, Z.bits_0, Z.pow2_bits_eqb by lia.
    destruct (Z.eqb_spec bit n) as [->|]; [by rewrite E | by rewrite andb_false_r].
Qed.

Lemma ssd1306_set_flag_testbit (b : ssd1306_t) (bit n : Z) (val : bool) :
  0 ≤ bit → 0 ≤ n →
  Z.testbit (flags (ssd1306_set_flag b bit val)) n =
    if n =? bit then val else Z.testbit (flags b) n.
Proof.
  intros Hbit Hn. unfold ssd1306_set_flag. cbn [flags].
  rewrite Z.shiftl_1_l, Z.lor_spec, Z.land_spec, Z.lnot_spec, Z.pow2_bits_eqb by lia.
  rewrite (Z.eqb_sym bit n).
  destruct (Z.eqb_spec n bit) as [->|Hne]; destruct val; simpl;
    rewrite ?Z.pow2_bits_true, ?Z.bits_0, ?Z.pow2_bits_false, ?andb_false_r, ?andb_true_r,
      ?orb_false_r by lia; done.
Qed.

Lemma ssd1306_get_set_flag (b : ssd1306_t) (bit bit' : Z) (val : bool) :
  0 ≤ bit → 0 ≤ bit' →
  ssd1306_get_flag (ssd1306_set_flag b bit val) bit' =
    if bit' =? bit then val else ssd1306_get_flag b bit'.
Proof.
  intros. rewrite !ssd1306_get_flag_testbit by done.
  by apply ssd1306_set_flag_testbit.
Qed.

(** ** The decoder *)

Lemma update_lumamap_snapshot (b : ssd1306_t) (lm : lumamap_t) :
  wf_lumamap lm → is_snapshot b (update_lumamap b lm).
Proof.
  intros Hwf. destruct (update_lumamap_cells b lm Hwf) as [Hwf' Hget].
  split; [done|]. intros r c Hr Hc. rewrite Hget.
  destruct (Nat.ltb_spec r (Z.to_nat OLED_HEIGHT_PX)); [|lia].
  destruct (Nat.ltb_spec c (Z.to_nat OLED_WIDTH_PX)); [|lia]. done.
Qed.

(** The snapshot does not depend on what the LumaMap held before. *)
Lemma is_snapshot_unique (b : ssd1306_t) (lm1 lm2 : lumamap_t) :
  is_snapshot b lm1 → is_snapshot b lm2 → lm1 = lm2.
Proof.
  intros [W1 G1] [W2 G2]. apply lumamap_ext; [done..|].
  intros r c Hr Hc. by rewrite G1, G2.
Qed.

Lemma hook_idle (s : arduboy_avr_mod_state) :
  frame_boundary (ssd1306 s) = false → hook_ssd1306_write_data s = s.
Proof.
  unfold frame_boundary, hook_ssd1306_write_data. intros H.
  destruct (di_pin (ssd1306 s) =? SSD1306_VIRT_DATA); [|done].
  simpl in H. rewrite H. done.
Qed.

Lemma hook_snapshot (s : arduboy_avr_mod_state) :
  frame_boundary (ssd1306 s) = true →
  hook_ssd1306_write_data s =
    set_ssd1306 (ssd1306_set_flag (ssd1306 s) SSD1306_FLAG_DIRTY false)
      (set_lumamap (update_lumamap (ssd1306 s) (lumamap s)) s).
Proof.
  unfold frame_boundary, hook_ssd1306_write_data. intros H.
  destruct (di_pin (ssd1306 s) =? SSD1306_VIRT_DATA); [|done].
  simpl in H. rewrite H. done.
Qed.

Lemma hook_wf (s : arduboy_avr_mod_state) :
  wf_lumamap (lumamap s) → wf_lumamap (lumamap (hook_ssd1306_write_data s)).
Proof.
  intros Hwf. destruct (frame_boundary (ssd1306 s)) eqn:E.
  - rewrite hook_snapshot by done. simpl. by apply update_lumamap_cells.
  - by rewrite hook_idle.
Qed.

Lemma notifications_wf (bs : list ssd1306_t) (s : arduboy_avr_mod_state) :
  wf_lumamap (lumamap s) → wf_lumamap (lumamap (notifications bs s)).
Proof.
  revert s. induction bs as [|b bs IH]; intros s Hwf; [done|].
  simpl. apply IH. unfold notify. by apply hook_wf.
Qed.

Lemma blank_lumamap_wf : wf_lumamap blank_lumamap.
Proof.
  split; [apply length_replicate|].
  apply Forall_replicate, length_replicate.
Qed.

(** The sequence as a whole: the LumaMap is the snapshot taken at the last
    notification at a frame boundary, and the initial one if there was none. *)
Lemma notifications_lumamap (bs : list ssd1306_t) (s : arduboy_avr_mod_state) :
  wf_lumamap (lumamap s) →
  match last (filter (λ b, frame_boundary b = true) bs) with
  | Some b => is_snapshot b (lumamap (notifications bs s))
  | None => lumamap (notifications bs s) = lumamap s
  end.
Proof.
  intros Hwf. induction bs as [|b bs IH] using rev_ind; [done|].
  unfold notifications in *. rewrite foldl_app. simpl.
  rewrite filter_app. unfold notify at 1 3.
  destruct (frame_boundary b) eqn:E.
  - rewrite filter_cons_True, filter_nil by done. rewrite last_snoc.
    rewrite hook_snapshot by done. simpl.
    apply update_lumamap_snapshot. by apply notifications_wf.
  - rewrite filter_cons_False, filter_nil, app_nil_r by (by rewrite E).
    rewrite hook_idle by done. done.
Qed.

(** C1.  After any sequence of write notifications, the next notification
    acts if and only if it arrives on the data channel with the cursor at
    page 0, column 0 and the dirty flag set: any other notification leaves
    the module state, and so the LumaMap, as it is, and the LumaMap changes
    only at such a notification.  There the whole unpacked display memory is
    written into the LumaMap and the dirty flag is cleared; the content of
    the LumaMap then differs from before exactly when it was not that
    snapshot already. *)
Theorem hook_ssd1306_write_data_gate
    (bs : list ssd1306_t) (s0 : arduboy_avr_mod_state) (b : ssd1306_t) :
  wf_lumamap (lumamap s0) →
  let s := notifications bs s0 in
  let s' := notify s b in
  (s' ≠ set_ssd1306 b s ↔ frame_boundary b = true) ∧
  (lumamap s' ≠ lumamap s → frame_boundary b = true) ∧
  (frame_boundary b = false → lumamap s' = lumamap s) ∧
  (frame_boundary b = true →
     is_snapshot b (lumamap s') ∧
     ssd1306_get_flag (ssd1306 s') SSD1306_FLAG_DIRTY = false ∧
     vram (ssd1306 s') = vram b ∧
     (lumamap s' ≠ lumamap s ↔ ¬ is_snapshot b (lumamap s))).
Proof.
  intros Hwf0 s s'.
  assert (wf_lumamap (lumamap s)) as Hwf by by apply notifications_wf.
  assert (frame_boundary b = false → s' = set_ssd1306 b s) as Hidle.
  { intros E. subst s'. unfold notify. by rewrite hook_idle. }
  assert (frame_boundary b = true →
          ssd1306_get_flag (ssd1306 s') SSD1306_FLAG_DIRTY = false) as Hclear.
  { intros E. subst s'. unfold notify. rewrite hook_snapshot by done.
    cbn [ssd1306 set_ssd1306]. by rewrite ssd1306_get_set_flag. }
  split; [|split; [|split]].
  - split.
    + intros Hne. destruct (frame_boundary b) eqn:E; [done|].
      exfalso. by apply Hne, Hidle.
    + intros E Heq. specialize (Hclear E). rewrite Heq in Hclear.
      cbn [ssd1306 set_ssd1306] in Hclear.
      unfold frame_boundary in E. rewrite Hclear, andb_false_r in E. done.
  - intros Hne. destruct (frame_boundary b) eqn:E; [done|].
    rewrite Hidle in Hne by done. done.
  - intros E. by rewrite Hidle.
  - intros E. split; [|split; [by apply Hclear|]].
    + subst s'. unfold notify. rewrite hook_snapshot by done.
      cbn [lumamap set_ssd1306 set_lumamap ssd1306].
      by apply update_lumamap_snapshot.
    + subst s'. unfold notify. rewrite hook_snapshot by done.
      cbn [lumamap set_ssd1306 set_lumamap ssd1306 ssd1306_set_flag vram].
      assert (is_snapshot b (update_lumamap b (lumamap s))) as Hsnap
        by by apply update_lumamap_snapshot.
      split; [done|]. split.
      * intros Hne Hold. apply Hne.
        apply (is_snapshot_unique b); [exact Hsnap | exact Hold].
      * intros Hnot Heq. apply Hnot. by rewrite <- Heq.
Qed.

Lemma hook_ssd1306_write_data_gate_witness :
  let b := Ssd (replicate 8 (replicate 128 255)) 64 (Cursor 0 0) SSD1306_VIRT_DATA 127 in
  let s0 := ModS None b false blank_lumamap [] in
  frame_boundary b = true ∧
  lumamap_get (lumamap (notify (notifications [b] s0) b)) 63 127 = 1.
Proof.
  intros b s0. split; [reflexivity|].
  destruct (hook_ssd1306_write_data_gate [b] s0 b blank_lumamap_wf) as (_ & _ & _ & H).
  destruct (H eq_refl) as ((_ & Hget) & _).
  rewrite Hget by (vm_compute; lia). reflexivity.
Defined.


(** ** What the other functions leave alone *)

Lemma render_screen_frame (b : ssd1306_t) (s s' : arduboy_avr_mod_state) :
  render_screen b s = Some s' →
  ∃ px, s' = set_pixels px s.
Proof.
  unfold render_screen. intros H.
  destruct (negb (ssd1306_get_flag b SSD1306_FLAG_DISPLAY_ON)).
  - exists (pixels s). destruct s. by simplify_eq.
  - destruct (ssd1306_get_flag b SSD1306_FLAG_SEGMENT_REMAP_0);
      destruct (ssd1306_get_flag b SSD1306_FLAG_COM_SCAN_NORMAL);
      match type of H with
      | context [for_loop ?f ?c ?v ?body ?i ?cv] =>
          destruct (for_loop f c v body i cv) as [cv'|]; [|done]
      end; cbn [mbind option_bind] in H; injection H as <-; by eexists.
Qed.

Lemma update_screen_lumamap (a : avr_t) (when : Z) (s s' : arduboy_avr_mod_state) (next : Z) :
  update_screen a when s = Some (s', next) → lumamap s' = lumamap s.
Proof.
  unfold update_screen. intros H.
  destruct (render_screen (ssd1306 s) s) as [s1|] eqn:Er; [|done].
  cbn [mbind option_bind] in H. injection H as <- _.
  apply render_screen_frame in Er as [px ->]. done.
Qed.

Lemma button_event_lumamap (btn_e : Z) (p : bool) (w w' : world) :
  arduboy_avr_button_event btn_e p w = Some w' → lumamap w'.2 = lumamap w.2.
Proof.
  destruct w as [btns s]. unfold arduboy_avr_button_event. intros H.
  destruct (avr s) as [m|]; [|by simplify_eq].
  destruct (btn_e <? BTN_COUNT); [|by simplify_eq].
  destruct (btns !! Z.to_nat btn_e) as [btn|]; [|done].
  cbn [mbind option_bind] in H.
  destruct (negb (eqb (pressed btn) p)); by simplify_eq.
Qed.

Lemma set_eeprom_lumamap (s s' : arduboy_avr_mod_state) (bytes : list Z) (r : bool) :
  arduboy_avr_set_eeprom s bytes = Some (r, s') → lumamap s' = lumamap s.
Proof.
  unfold arduboy_avr_set_eeprom, set_eeprom_via. intros H.
  destruct (avr s) as [m|]; [done | by simplify_eq].
Qed.
(** C8.  Whatever step of the module changes the LumaMap rewrites all of
    it in that step: afterwards every cell holds the bit of the display
    memory it unpacks, bit [r mod 8] of the byte at page [r / 8] and column
    [c]. *)
Theorem lumamap_mutation_is_full_snapshot (w w' : world) :
  wf_lumamap (lumamap w.2) →
  module_step w w' →
  lumamap w'.2 ≠ lumamap w.2 →
  wf_lumamap (lumamap w'.2) ∧
  ∀ r c, (r < Z.to_nat OLED_HEIGHT_PX)%nat → (c < Z.to_nat OLED_WIDTH_PX)%nat →
    lumamap_get (lumamap w'.2) r c =
      Z.b2z (Z.testbit (vram_at (ssd1306 w.2) (r / 8) c) (Z.of_nat (r mod 8))).
Proof.
  intros Hwf Hstep Hne. destruct Hstep as
    [btns s | btns s a when s' next Ht | btns s btn_e p w' Hb
    | btns s bytes r s' He | btns s px | btns s | btns s b]; simpl in *.
  - destruct (frame_boundary (ssd1306 s)) eqn:E.
    + rewrite hook_snapshot in * by done. simpl in *.
      by apply update_lumamap_snapshot.
    + rewrite hook_idle in Hne by done. done.
  - exfalso. apply Hne. by eapply update_screen_lumamap.
  - exfalso. apply Hne. by apply (button_event_lumamap btn_e p (btns, s) w').
  - exfalso. apply Hne. by eapply set_eeprom_lumamap.
  - done.
  - exfalso. apply Hne. unfold arduboy_avr_teardown. by case_match.
  - done.
Qed.

(** ** The renderer's loops *)

Section ForLoop.
Context {S : Type} (body : Z → S → option S) (bound : Z).

Lemma for_loop_up (n : nat) : ∀ (fuel : nat) (i : Z) (s : S),
  (n < fuel)%nat → 0 ≤ i → i + Z.of_nat n = bound →
  for_loop fuel (in_screen bound) 1 body i s =
    run_over body (seqZ i (Z.of_nat n)) s.
Proof.
  induction n as [|n IH]; intros fuel i s Hfuel Hi Hb;
    (destruct fuel as [|fuel]; [lia|]); cbn [for_loop]; unfold in_screen.
  - replace (i <? bound) with false by (symmetry; apply Z.ltb_ge; lia).
    by rewrite andb_false_r.
  - replace (0 <=? i) with true by (symmetry; apply Z.leb_le; lia).
    replace (i <? bound) with true by (symmetry; apply Z.ltb_lt; lia).
    rewrite seqZ_cons by lia. cbn [andb run_over].
    destruct (body i s) as [s1|]; [|done]. cbn [mbind option_bind].
    replace (Z.pred (Z.of_nat (Datatypes.S n))) with (Z.of_nat n) by lia.
    unfold in_screen in IH. apply IH; lia.
Qed.

Lemma for_loop_down (n : nat) : ∀ (fuel : nat) (i : Z) (s : S),
  (n < fuel)%nat → i = Z.of_nat n - 1 → i < bound →
  for_loop fuel (in_screen bound) (-1) body i s =
    run_over body (reverse (seqZ 0 (Z.of_nat n))) s.
Proof.
  induction n as [|n IH]; intros fuel i s Hfuel Hi Hb;
    (destruct fuel as [|fuel]; [lia|]); cbn [for_loop]; unfold in_screen.
  - replace (0 <=? i) with false by (symmetry; apply Z.leb_gt; lia). done.
  - replace (0 <=? i) with true by (symmetry; apply Z.leb_le; lia).
    replace (i <? bound) with true by (symmetry; apply Z.ltb_lt; lia).
    replace (Z.of_nat (Datatypes.S n)) with (Z.of_nat n + 1) by lia.
    rewrite seqZ_app by lia. rewrite reverse_app. 
    replace (0 + Z.of_nat n) with i by lia.
    change (seqZ i 1) with [i]. cbn [reverse rev_append app andb run_over].
    change (reverse [i]) with [i]. cbn [app run_over].
    destruct (body i s) as [s1|]; [|done]. cbn [mbind option_bind].
    unfold in_screen in IH. apply IH; lia.
Qed.

(** Both directions at once, as the renderer sets them up. *)
Lemma for_loop_scan (mirrored : bool) (s : S) :
  0 ≤ bound →
  for_loop (Datatypes.S (Z.to_nat bound)) (in_screen bound)
    (if mirrored then -1 else 1) body
    (if mirrored then bound - 1 else 0) s =
  run_over body (scan_order bound mirrored) s.
Proof.
  intros Hb. unfold scan_order. destruct mirrored.
  - rewrite (for_loop_down (Z.to_nat bound)) by lia.
    by rewrite Z2Nat.id by lia.
  - rewrite (for_loop_up (Z.to_nat bound)) by lia.
    by rewrite Z2Nat.id by lia.
Qed.
End ForLoop.

Lemma scan_order_length (bound : Z) (mirrored : bool) :
  length (scan_order bound mirrored) = Z.to_nat bound.
Proof.
  unfold scan_order. destruct mirrored; rewrite ?length_reverse, length_seqZ; done.
Qed.

Lemma scan_order_lookup (bound : Z) (mirrored : bool) (k : nat) :
  (k < Z.to_nat bound)%nat →
  scan_order bound mirrored !! k = Some (mirror bound mirrored (Z.of_nat k)).
Proof.
  intros Hk. unfold scan_order, mirror. destruct mirrored.
  - rewrite reverse_lookup by (rewrite length_seqZ; lia).
    rewrite length_seqZ, lookup_seqZ_lt by lia. f_equal. lia.
  - rewrite lookup_seqZ_lt by lia. f_equal.
Qed.

(** A row of stores through the moving pointer. *)
Lemma store_row (f : Z → Z) (xs : list Z) : ∀ (k : nat) (px : list Z),
  (k + length xs ≤ length px)%nat →
  ∃ px', run_over (λ x, store_pixel (f x)) xs (k, px) = Some ((k + length xs)%nat, px')
       ∧ length px' = length px
       ∧ ∀ j, px' !! j = if decide (k ≤ j < k + length xs)%nat
                         then f <$> xs !! (j - k)%nat else px !! j.
Proof.
  induction xs as [|x xs IH]; intros k px Hlen.
  - exists px. cbn [run_over length]. rewrite Nat.add_0_r.
    split; [done|]. split; [done|]. intros j. rewrite decide_False by lia. done.
  - cbn [run_over store_pixel length] in *.
    rewrite decide_True by lia. cbn [mbind option_bind].
    destruct (IH (S k) (<[k := f x]> px)) as (px' & Hrun & Hl & Hget);
      [rewrite length_insert; lia|].
    exists px'. rewrite Hrun. split; [f_equal; f_equal; lia|].
    split; [by rewrite Hl, length_insert|].
    intros j. rewrite Hget.
    destruct (decide (j = k)) as [->|Hne].
    + rewrite decide_False by lia. rewrite decide_True by lia.
      rewrite list_lookup_insert_eq by lia. by rewrite Nat.sub_diag.
    + rewrite list_lookup_insert_ne by done.
      destruct (decide (S k ≤ j < S k + length xs)%nat).
      * rewrite decide_True by lia.
        replace (j - k)%nat with (S (j - S k)) by lia. done.
      * rewrite decide_False by lia. done.
Qed.

(** The rows of a frame, one after the other. *)
Lemma store_rows (g : Z → Z → Z) (xs : list Z) (ys : list Z) :
  ∀ (k : nat) (px : list Z),
  (k + length ys * length xs ≤ length px)%nat →
  ∃ px', run_over (λ y, run_over (λ x, store_pixel (g y x)) xs) ys (k, px)
           = Some ((k + length ys * length xs)%nat, px')
       ∧ length px' = length px
       ∧ (∀ m, (m < k)%nat → px' !! m = px !! m)
       ∧ ∀ i j y x, ys !! i = Some y → xs !! j = Some x →
           px' !! (k + i * length xs + j)%nat = Some (g y x).
Proof.
  induction ys as [|y ys IH]; intros k px Hlen.
  - exists px. cbn [run_over length]. split; [f_equal; f_equal; lia|].
    split; [done|]. split; [done|]. intros i j y x Hi. done.
  - cbn [run_over length] in *.
    destruct (store_row (g y) xs k px) as (px1 & Hrun1 & Hl1 & Hget1); [lia|].
    rewrite Hrun1. cbn [mbind option_bind].
    destruct (IH (k + length xs)%nat px1) as (px' & Hrun & Hl & Hkeep & Hget); [lia|].
    exists px'. rewrite Hrun. split; [f_equal; f_equal; lia|].
    split; [congruence|]. split.
    + intros m Hm. rewrite Hkeep by lia. rewrite Hget1.
      rewrite decide_False by lia. done.
    + intros i j y' x Hi Hj.
      assert (j < length xs)%nat by (by eapply lookup_lt_Some).
      destruct i as [|i].
      * cbn in Hi. injection Hi as <-.
        rewrite Hkeep by lia. rewrite Hget1. rewrite decide_True by lia.
        replace (k + 0 * length xs + j - k)%nat with j by lia.
        by rewrite Hj.
      * cbn in Hi.
        replace (k + S i * length xs + j)%nat
          with (k + length xs + i * length xs + j)%nat by lia.
        by eapply Hget.
Qed.

Lemma run_over_ext {S : Type} (f g : Z → S → option S) (l : list Z) (s : S) :
  (∀ x s, f x s = g x s) → run_over f l s = run_over g l s.
Proof.
  intros Hfg. revert s. induction l as [|x l IH]; intros s; [done|].
  cbn [run_over]. rewrite Hfg. destruct (g x s); [apply IH | done].
Qed.

(** The renderer with the display on: the two loops visit the LumaMap in
    the scan order of each axis and store through the moving pointer. *)
Lemma render_screen_on (b : ssd1306_t) (s : arduboy_avr_mod_state) :
  ssd1306_get_flag b SSD1306_FLAG_DISPLAY_ON = true →
  render_screen b s =
    cv ← run_over
           (λ y, run_over
                   (λ x, store_pixel
                           (pixel_colour b
                              (lumamap_get (lumamap s) (Z.to_nat y) (Z.to_nat x))))
                   (scan_order OLED_WIDTH_PX
                      (ssd1306_get_flag b SSD1306_FLAG_SEGMENT_REMAP_0)))
           (scan_order OLED_HEIGHT_PX
              (ssd1306_get_flag b SSD1306_FLAG_COM_SCAN_NORMAL))
           (0%nat, pixels s);
    Some (set_pixels cv.2 s).
Proof.
  intros Hon. unfold render_screen. rewrite Hon. cbn [negb].
  set (fx := ssd1306_get_flag b SSD1306_FLAG_SEGMENT_REMAP_0).
  set (fy := ssd1306_get_flag b SSD1306_FLAG_COM_SCAN_NORMAL).
  set (fg := get_fg_colour _ _). set (bg := get_bg_colour _ _).
  assert (∀ y cv,
    render_row (lumamap s) fg bg (if fx then OLED_WIDTH_PX - 1 else 0)
      (if fx then -1 else 1) y cv =
    run_over
      (λ x, store_pixel
              (pixel_colour b (lumamap_get (lumamap s) (Z.to_nat y) (Z.to_nat x))))
      (scan_order OLED_WIDTH_PX fx) cv) as Hrow.
  { intros y cv. unfold render_row. rewrite for_loop_scan by done. done. }
  transitivity
    (cv ← for_loop (S (Z.to_nat OLED_HEIGHT_PX)) (in_screen OLED_HEIGHT_PX)
            (if fy then -1 else 1)
            (render_row (lumamap s) fg bg (if fx then OLED_WIDTH_PX - 1 else 0)
               (if fx then -1 else 1))
            (if fy then OLED_HEIGHT_PX - 1 else 0) (0%nat, pixels s);
     Some (set_pixels cv.2 s)).
  { by destruct fx, fy. }
  rewrite for_loop_scan by done.
  by rewrite (run_over_ext _ _ _ _ Hrow).
Qed.

(** C5.  With the display power flag off the renderer returns at once: the
    module state, and with it every element of the caller's pixel buffer, is
    what it was. *)
Theorem render_screen_display_off (b : ssd1306_t) (s : arduboy_avr_mod_state) :
  ssd1306_get_flag b SSD1306_FLAG_DISPLAY_ON = false →
  render_screen b s = Some s ∧
  ∀ s', render_screen b s = Some s' → ∀ i, pixels s' !! i = pixels s !! i.
Proof.
  intros Hoff. assert (render_screen b s = Some s) as Heq.
  { unfold render_screen. by rewrite Hoff. }
  split; [done|]. intros s' Hs' i. congruence.
Qed.

(** C7.  With the display on and a buffer of at least width x height
    pixels, the renderer returns, and the pixel at row [i], column [j] of the
    buffer shows the LumaMap cell whose row is [i] mirrored when
    COM_SCAN_NORMAL is set and whose column is [j] mirrored when
    SEGMENT_REMAP_0 is set, each axis by its own flag.  Buffer index 0
    therefore shows the top-left, top-right, bottom-left or bottom-right
    corner of the LumaMap. *)
Theorem render_screen_mirroring (b : ssd1306_t) (s : arduboy_avr_mod_state) :
  ssd1306_get_flag b SSD1306_FLAG_DISPLAY_ON = true →
  (Z.to_nat (OLED_WIDTH_PX * OLED_HEIGHT_PX) ≤ length (pixels s))%nat →
  let flip_x := ssd1306_get_flag b SSD1306_FLAG_SEGMENT_REMAP_0 in
  let flip_y := ssd1306_get_flag b SSD1306_FLAG_COM_SCAN_NORMAL in
  ∃ s', render_screen b s = Some s' ∧
    (∀ i j, 0 ≤ i < OLED_HEIGHT_PX → 0 ≤ j < OLED_WIDTH_PX →
       pixels s' !! Z.to_nat (i * OLED_WIDTH_PX + j) =
         Some (pixel_colour b
                 (lumamap_get (lumamap s)
                    (Z.to_nat (mirror OLED_HEIGHT_PX flip_y i))
                    (Z.to_nat (mirror OLED_WIDTH_PX flip_x j))))) ∧
    pixels s' !! 0%nat =
      Some (pixel_colour b
              (lumamap_get (lumamap s)
                 (if flip_y then 63%nat else 0%nat)
                 (if flip_x then 127%nat else 0%nat))).
Proof.
  intros Hon Hlen flip_x flip_y. rewrite render_screen_on by done.
  fold flip_x flip_y.
  destruct (store_rows
              (λ y x, pixel_colour b (lumamap_get (lumamap s) (Z.to_nat y) (Z.to_nat x)))
              (scan_order OLED_WIDTH_PX flip_x) (scan_order OLED_HEIGHT_PX flip_y)
              0%nat (pixels s))
    as (px' & Hrun & Hl & _ & Hget).
  { rewrite !scan_order_length. unfold OLED_WIDTH_PX, OLED_HEIGHT_PX in *. lia. }
  rewrite Hrun. cbn [mbind option_bind]. eexists. split; [done|].
  cbn [pixels set_pixels snd].
  assert (∀ i j, 0 ≤ i < OLED_HEIGHT_PX → 0 ≤ j < OLED_WIDTH_PX →
    px' !! Z.to_nat (i * OLED_WIDTH_PX + j) =
      Some (pixel_colour b
              (lumamap_get (lumamap s)
                 (Z.to_nat (mirror OLED_HEIGHT_PX flip_y i))
                 (Z.to_nat (mirror OLED_WIDTH_PX flip_x j))))) as Hall.
  { intros i j Hi Hj.
    specialize (Hget (Z.to_nat i) (Z.to_nat j)
                  (mirror OLED_HEIGHT_PX flip_y i) (mirror OLED_WIDTH_PX flip_x j)).
    rewrite scan_order_length in Hget.
    replace (Z.to_nat (i * OLED_WIDTH_PX + j))
      with (0 + Z.to_nat i * Z.to_nat OLED_WIDTH_PX + Z.to_nat j)%nat
      by (unfold OLED_WIDTH_PX in *; lia).
    apply Hget.
    - rewrite scan_order_lookup by (unfold OLED_HEIGHT_PX in *; lia).
      by rewrite Z2Nat.id by lia.
    - rewrite scan_order_lookup by (unfold OLED_WIDTH_PX in *; lia).
      by rewrite Z2Nat.id by lia. }
  split; [done|].
  specialize (Hall 0 0 ltac:(done) ltac:(done)).
  change (Z.to_nat (0 * OLED_WIDTH_PX + 0)) with 0%nat in Hall.
  rewrite Hall. by destruct flip_x, flip_y.
Qed.

(** ** Colours *)

Lemma colours_checked : forallb colours_as_specified (seqZ 0 256) = true.
Proof. vm_compute. reflexivity. Qed.

Lemma contrast_to_opacity_0 : (contrast_to_opacity 0 == 1 # 2)%Q.
Proof. vm_compute. reflexivity. Qed.

Lemma contrast_to_opacity_255 : (contrast_to_opacity 255 == (255 # 512) + (1 # 2))%Q.
Proof. vm_compute. reflexivity. Qed.

Lemma black_channels :
  red_of (int_of_unsigned BLACK) = 0 ∧ green_of (int_of_unsigned BLACK) = 0 ∧
  blue_of (int_of_unsigned BLACK) = 0 ∧ alpha_of (int_of_unsigned BLACK) = 255.
Proof. vm_compute. done. Qed.

Lemma gray_level (c : Z) :
  Qfloor (255 * (inject_Z c / 512 + (1 # 2)))%Q = 255 * (c + 256) / 512.
Proof.
  assert (255 * (inject_Z c / 512 + (1 # 2)) == (255 * (c + 256) # 512))%Q as Hq.
  { unfold Qeq. cbn. lia. }
  rewrite (Qfloor_comp _ _ Hq). reflexivity.
Qed.

Lemma colours_as_specified_all (c : Z) : 0 ≤ c ≤ 255 → colours_as_specified c = true.
Proof.
  intros Hc. pose proof colours_checked as Hall. rewrite forallb_forall in Hall.
  apply Hall. apply list_elem_of_In, elem_of_seqZ. lia.
Qed.

Lemma colours_as_specified_elim (c : Z) :
  colours_as_specified c = true →
  let opacity := contrast_to_opacity c in
  let gray := Qfloor (255 * (inject_Z c / 512 + (1 # 2)))%Q in
  (opacity == inject_Z c / 512 + (1 # 2))%Q ∧
  red_of (get_fg_colour false opacity) = gray ∧
  green_of (get_fg_colour false opacity) = gray ∧
  blue_of (get_fg_colour false opacity) = gray ∧
  alpha_of (get_fg_colour false opacity) = 255 ∧
  get_bg_colour true opacity = get_fg_colour false opacity.
Proof.
  unfold colours_as_specified. cbv zeta.
  rewrite !andb_true_iff, !Z.eqb_eq, Qeq_bool_iff. tauto.
Qed.

(** C6.  For every contrast register value the opacity is exactly
    [c/512 + 1/2] (so 1/2 at contrast 0 and 255/512 + 1/2 at contrast 255).
    With invert set the foreground is opaque black whatever the opacity;
    without it the foreground is an opaque gray whose red, green and blue
    are [255 * opacity] cut to an integer.  The background is black without
    invert and the non-inverted foreground gray with it. *)
Theorem contrast_and_colours (c : Z) :
  0 ≤ c ≤ 255 →
  let opacity := contrast_to_opacity c in
  (opacity == inject_Z c / 512 + (1 # 2))%Q ∧
  (contrast_to_opacity 0 == 1 # 2)%Q ∧
  (contrast_to_opacity 255 == (255 # 512) + (1 # 2))%Q ∧
  (∀ q : Q, get_fg_colour true q = int_of_unsigned BLACK ∧
            red_of (get_fg_colour true q) = 0 ∧
            green_of (get_fg_colour true q) = 0 ∧
            blue_of (get_fg_colour true q) = 0) ∧
  (let gray := Qfloor (255 * (inject_Z c / 512 + (1 # 2)))%Q in
   red_of (get_fg_colour false opacity) = gray ∧
   green_of (get_fg_colour false opacity) = gray ∧
   blue_of (get_fg_colour false opacity) = gray ∧
   alpha_of (get_fg_colour false opacity) = 255 ∧
   gray = 255 * (c + 256) / 512) ∧
  get_bg_colour false opacity = int_of_unsigned BLACK ∧
  get_bg_colour true opacity = get_fg_colour false opacity.
Proof.
  intros Hc opacity.
  destruct (colours_as_specified_elim c (colours_as_specified_all c Hc))
    as (Hop & Hr & Hg & Hb & Ha & Hbg).
  split; [exact Hop|].
  split; [exact contrast_to_opacity_0|].
  split; [exact contrast_to_opacity_255|].
  split.
  { intros q. change (get_fg_colour true q) with (int_of_unsigned BLACK).
    split; [reflexivity|]. pose proof black_channels. tauto. }
  split; [|split; [reflexivity | exact Hbg]].
  cbv zeta. split; [exact Hr|]. split; [exact Hg|]. split; [exact Hb|].
  split; [exact Ha|]. apply gray_level.
Qed.

(** ** The display theorems at concrete states *)

Lemma render_screen_display_off_witness :
  render_screen (white_controller 0) (session 0 cpu_Running 0 blank_lumamap [7; 7])
    = Some (session 0 cpu_Running 0 blank_lumamap [7; 7]).
Proof.
  apply (render_screen_display_off (white_controller 0)
           (session 0 cpu_Running 0 blank_lumamap [7; 7])).
  reflexivity.
Defined.

Lemma contrast_and_colours_witness :
  0 ≤ 128 ≤ 255 ∧ (contrast_to_opacity 128 == inject_Z 128 / 512 + (1 # 2))%Q.
Proof.
  assert (0 ≤ 128 ≤ 255) as Hc by lia.
  split; [exact Hc|].
  destruct (contrast_and_colours 128 Hc) as [Hop _]. exact Hop.
Defined.

Lemma render_screen_mirroring_witness :
  let b := white_controller 14 in
  let s := session 0 cpu_Running 14 (lumamap_set blank_lumamap 63 127 1)
             (replicate (Z.to_nat 8192) 0) in
  ∃ s', render_screen b s = Some s' ∧
        pixels s' !! 0%nat = Some (pixel_colour b 1).
Proof.
  intros b s.
  destruct (render_screen_mirroring b s) as (s' & Hr & _ & H0).
  - reflexivity.
  - vm_compute. lia.
  - exists s'. split; [exact Hr|]. rewrite H0. vm_compute. reflexivity.
Defined.

Lemma lumamap_mutation_is_full_snapshot_witness :
  let w : world := ([], session 0 cpu_Running 64 blank_lumamap []) in
  let w' : world := (w.1, hook_ssd1306_write_data w.2) in
  lumamap_get (lumamap w'.2) 63 127 = 1.
Proof.
  intros w w'.
  destruct (lumamap_mutation_is_full_snapshot w w') as [_ Hget].
  - exact blank_lumamap_wf.
  - apply step_notification.
  - vm_compute. discriminate.
  - rewrite Hget by (vm_compute; lia). vm_compute. reflexivity.
Defined.

(** ** The frame scheduler *)

Lemma update_screen_result (a : avr_t) (when : Z) (s s' : arduboy_avr_mod_state) (next : Z) :
  update_screen a when s = Some (s', next) →
  ∃ s1, render_screen (ssd1306 s) s = Some s1 ∧ s' = set_yield true s1 ∧
        next = (cycle a + frame_period a) mod 2 ^ 64.
Proof.
  unfold update_screen, frame_period. intros H.
  destruct (render_screen (ssd1306 s) s) as [s1|]; [|done].
  cbn [mbind option_bind] in H. injection H as <- <-. by exists s1.
Qed.

(** C2, as the code has it.  A firing of the frame timer that returns has
    invoked the renderer and set the yield flag, and asks to be fired again
    at the engine's current cycle plus one frame period, whatever time the
    firing was scheduled for.  That is the scheduled time plus one period
    exactly when the firing is on time. *)
Theorem update_screen_rearms_from_now
    (a : avr_t) (when : Z) (s s' : arduboy_avr_mod_state) (next : Z) :
  0 ≤ cycle a < 2 ^ 64 → 0 ≤ when < 2 ^ 64 →
  update_screen a when s = Some (s', next) →
  (∃ s1, render_screen (ssd1306 s) s = Some s1 ∧ s' = set_yield true s1) ∧
  yield s' = true ∧
  next = (cycle a + frame_period a) mod 2 ^ 64 ∧
  (∀ when', ∃ s2, update_screen a when' s = Some (s2, next)) ∧
  (next = (when + frame_period a) mod 2 ^ 64 ↔ cycle a = when).
Proof.
  intros Hc Hw H.
  destruct (update_screen_result a when s s' next H) as (s1 & Hr & -> & ->).
  split; [by exists s1|]. split; [done|]. split; [done|]. split.
  - intros when'. exists (set_yield true s1). unfold update_screen.
    rewrite Hr. done.
  - split; [|by intros ->].
    intros Heq.
    assert ((cycle a - when) mod 2 ^ 64 = 0) as Hz.
    { replace (cycle a - when)
        with ((cycle a + frame_period a) - (when + frame_period a)) by lia.
      rewrite Zminus_mod, Heq, Z.sub_diag. done. }
    apply Z.mod_divide in Hz; [|lia]. destruct Hz as [k Hk]. nia.
Qed.

Lemma update_screen_rearms_from_now_witness :
  let a := core (engine_at 300000 cpu_Running) in
  566656 ≠ (266656 + frame_period a) mod 2 ^ 64.
Proof.
  intros a.
  destruct (update_screen_rearms_from_now a 266656
              (session 300000 cpu_Running 0 blank_lumamap [])
              (set_yield true (session 300000 cpu_Running 0 blank_lumamap []))
              566656)
    as (_ & _ & _ & _ & Hiff).
  - vm_compute. split; [discriminate | reflexivity].
  - vm_compute. split; [discriminate | reflexivity].
  - reflexivity.
  - intros E. apply Hiff in E. vm_compute in E. discriminate.
Defined.

(** The claim of C2 as the specification words it fails: a firing that is
    late by 33344 cycles asks for cycle 566656, not for the scheduled cycle
    266656 plus the period of 266656 cycles. *)
Lemma update_screen_late_firing :
  ¬ (∀ (a : avr_t) (when : Z) (s s' : arduboy_avr_mod_state) (next : Z),
       0 ≤ cycle a < 2 ^ 64 → 0 ≤ when < 2 ^ 64 →
       update_screen a when s = Some (s', next) →
       next = (when + frame_period a) mod 2 ^ 64).
Proof.
  intros H.
  specialize (H (core (engine_at 300000 cpu_Running)) 266656
                (session 300000 cpu_Running 0 blank_lumamap [])
                (set_yield true (session 300000 cpu_Running 0 blank_lumamap []))
                566656).
  assert (566656 = (266656 + frame_period (core (engine_at 300000 cpu_Running))) mod 2 ^ 64)
    as Hbad.
  { apply H.
    - vm_compute. split; [discriminate | reflexivity].
    - vm_compute. split; [discriminate | reflexivity].
    - reflexivity. }
  vm_compute in Hbad. discriminate.
Qed.

(** ** The persistent-memory accessors *)

Lemma memcpy_result (dst src : list Z) (n : Z) :
  (Z.to_nat n ≤ length dst)%nat → (Z.to_nat n ≤ length src)%nat →
  memcpy dst src n = Some (take (Z.to_nat n) src ++ drop (Z.to_nat n) dst).
Proof. intros Hd Hs. unfold memcpy. by rewrite decide_True. Qed.

(** Without a Session both accessors report false and copy nothing. *)
Lemma eeprom_no_session (s : arduboy_avr_mod_state) (bytes : list Z) :
  avr s = None →
  arduboy_avr_get_eeprom s bytes = Some (false, bytes) ∧
  arduboy_avr_set_eeprom s bytes = Some (false, s).
Proof.
  intros H. unfold arduboy_avr_get_eeprom, arduboy_avr_set_eeprom.
  by rewrite H.
Qed.

(** Had the cast been given the engine pointer [mod_s.avr], writing a
    buffer and reading it back would return the buffer over the size of the
    region. *)
Lemma eeprom_roundtrip_via_engine (s s' : arduboy_avr_mod_state) (m : mcu_t)
    (bytes buf : list Z) (r : bool) :
  avr s = Some m →
  (Z.to_nat (size (mcu_eeprom m)) ≤ length (eeprom (mcu_eeprom m)))%nat →
  (Z.to_nat (size (mcu_eeprom m)) ≤ length bytes)%nat →
  (Z.to_nat (size (mcu_eeprom m)) ≤ length buf)%nat →
  set_eeprom_via engine_allocation s bytes = Some (r, s') →
  ∃ out, get_eeprom_via engine_allocation s' buf = Some (true, out) ∧
         r = true ∧
         take (Z.to_nat (size (mcu_eeprom m))) out
           = take (Z.to_nat (size (mcu_eeprom m))) bytes ∧
         drop (Z.to_nat (size (mcu_eeprom m))) out
           = drop (Z.to_nat (size (mcu_eeprom m))) buf.
Proof.
  intros Hm He Hb Hbuf Hset. unfold set_eeprom_via, get_eeprom_via in *.
  cbn [mcu_eeprom_at] in *. rewrite Hm in Hset. cbn [fmap option_fmap option_map mbind option_bind] in Hset.
  rewrite memcpy_result in Hset by done. cbn [mbind option_bind] in Hset.
  injection Hset as <- <-. cbn [avr set_avr fmap option_fmap option_map mbind option_bind mcu_eeprom eeprom size].
  set (n := Z.to_nat (size (mcu_eeprom m))) in *.
  assert (length (take n bytes) = n) as Ht by (rewrite length_take; lia).
  rewrite memcpy_result by (rewrite ?length_app, ?length_drop, ?Ht; fold n; lia).
  fold n. cbn [mbind option_bind]. eexists. split; [done|]. split; [done|].
  rewrite take_app_length' by (rewrite length_take, length_app, Ht; lia).
  rewrite drop_app_length' by (rewrite length_take, length_app, Ht; lia).
  rewrite take_app_length' by done. done.
Qed.

(** C3, at a Session.  The accessors hand the cast the address of the field
    [mod_s.avr], not the engine: there is no EEPROM descriptor to read
    there, and neither call has a defined result, for any buffer. *)
Theorem eeprom_accessors_miss_the_engine
    (s : arduboy_avr_mod_state) (bytes : list Z) :
  is_Some (avr s) →
  arduboy_avr_set_eeprom s bytes = None ∧
  arduboy_avr_get_eeprom s bytes = None.
Proof.
  intros [m Hm]. unfold arduboy_avr_set_eeprom, arduboy_avr_get_eeprom.
  rewrite Hm. done.
Qed.

Lemma eeprom_accessors_miss_the_engine_witness :
  arduboy_avr_set_eeprom (session 0 cpu_Running 0 blank_lumamap [])
    (replicate 1024 0) = None.
Proof.
  apply (eeprom_accessors_miss_the_engine
           (session 0 cpu_Running 0 blank_lumamap []) (replicate 1024 0)).
  eexists. reflexivity.
Defined.

(** ** The execution loop *)

Section LoopFacts.
Variable avr_run : arduboy_avr_mod_state → arduboy_avr_mod_state * Z.

(** What a burst returns, against what the engine reported during it. *)
Lemma burst_reported (fuel : nat) : ∀ s,
  match burst avr_run fuel s with
  | Some (true, s') =>
      yield s' = true ∧ Forall (λ st, terminal st = false) (reported avr_run fuel s)
  | Some (false, s') =>
      ∃ rs st, reported avr_run fuel s = rs ++ [st] ∧ terminal st = true ∧
               Forall (λ st, terminal st = false) rs
  | None =>
      length (reported avr_run fuel s) = fuel ∧
      Forall (λ st, terminal st = false) (reported avr_run fuel s)
  end.
Proof.
  induction fuel as [|fuel IH]; intros s.
  - cbn [burst reported]. destruct (yield s) eqn:Ey; [done|]. done.
  - cbn [burst reported]. destruct (yield s) eqn:Ey; [done|].
    destruct (avr_run s) as [s1 st] eqn:Er.
    destruct (terminal st) eqn:Et.
    + exists [], st. done.
    + specialize (IH s1).
      destruct (burst avr_run fuel s1) as [[[] s2]|].
      * destruct IH as [Hy Hall]. split; [done|]. by constructor.
      * destruct IH as (rs & st' & Hrs & Ht & Hall).
        exists (st :: rs), st'. rewrite Hrs. split; [done|]. split; [done|].
        by constructor.
      * destruct IH as [Hl Hall]. cbn [length]. split; [by rewrite Hl|].
        by constructor.
Qed.

(** C4.  With a Session, and for whatever the engine does in a quantum:
    the loop returns false exactly when the last state the engine reported
    during the burst is done or crashed, and returns true only with the
    yield flag set and no terminal state reported; it has no other way to
    end, so that no result means the engine kept running without the timer
    firing.  If the engine is already done or crashed at the call, and a
    stopped engine does nothing in a quantum, the loop returns false after
    that single quantum and the caller's buffer is as it was passed. *)
Theorem arduboy_avr_loop_result (fuel : nat) (px : list Z)
    (s : arduboy_avr_mod_state) :
  is_Some (avr s) →
  let entry := set_pixels px (set_yield false s) in
  let reports := reported avr_run fuel entry in
  (∀ b s', arduboy_avr_loop avr_run fuel px s = Some (b, s') →
     (b = false ↔ ∃ st, last reports = Some st ∧ terminal st = true) ∧
     (b = true ↔ yield s' = true ∧ Forall (λ st, terminal st = false) reports)) ∧
  (arduboy_avr_loop avr_run fuel px s = None →
     length reports = fuel ∧ Forall (λ st, terminal st = false) reports) ∧
  (∀ m, avr s = Some m → terminal (state (core m)) = true →
     avr_run entry = (entry, state (core m)) →
     arduboy_avr_loop avr_run (S fuel) px s = Some (false, entry) ∧
     reported avr_run (S fuel) entry = [state (core m)] ∧
     pixels entry = px).
Proof.
  intros [m0 Hm0] entry reports. unfold arduboy_avr_loop. rewrite Hm0.
  fold entry. pose proof (burst_reported fuel entry) as Hb. fold reports in Hb.
  assert (∀ rs st, reports = rs ++ [st] → terminal st = true →
          ¬ Forall (λ st, terminal st = false) reports) as Hexcl.
  { intros rs st Hrs Ht Hall. rewrite Hrs in Hall.
    rewrite Forall_app, Forall_singleton in Hall.
    destruct Hall as [_ Hall]. congruence. }
  split; [|split].
  - intros b s' Heq. rewrite Heq in Hb. destruct b.
    + destruct Hb as [Hy Hall]. split; split; try done.
      intros (st & Hlast & Ht). exfalso.
      apply last_Some in Hlast as [rs Hrs]. by eapply Hexcl.
    + destruct Hb as (rs & st & Hrs & Ht & Hall). split; split; try done.
      * intros _. exists st. split; [|done]. rewrite Hrs. apply last_snoc.
      * intros [_ Hall']. exfalso. by eapply Hexcl.
  - intros Heq. by rewrite Heq in Hb.
  - intros m Hm Ht Hrun. cbn [burst reported].
    change (yield entry) with false. cbv iota. rewrite Hrun, Ht. done.
Qed.

Lemma arduboy_avr_loop_no_session (fuel : nat) (px : list Z)
    (s : arduboy_avr_mod_state) :
  avr s = None → arduboy_avr_loop avr_run fuel px s = Some (false, s).
Proof. intros H. unfold arduboy_avr_loop. by rewrite H. Qed.
End LoopFacts.

Lemma arduboy_avr_loop_result_witness :
  let s := session 0 cpu_Crashed 2 blank_lumamap [] in
  let px := replicate (Z.to_nat 8192) 7 in
  arduboy_avr_loop timer_every_quantum 1 px s
    = Some (false, set_pixels px (set_yield false s)).
Proof.
  intros s px.
  destruct (arduboy_avr_loop_result timer_every_quantum 0 px s) as (_ & _ & H).
  - eexists. reflexivity.
  - destruct (H (engine_at 0 cpu_Crashed)) as [Hloop _].
    + reflexivity.
    + reflexivity.
    + reflexivity.
    + exact Hloop.
Defined.

Example arduboy_avr_loop_one_frame :
  let s := session 0 cpu_Running 0 blank_lumamap [] in
  ∃ s', arduboy_avr_loop timer_every_quantum 1 [1; 2; 3] s = Some (true, s')
        ∧ pixels s' = [1; 2; 3].
Proof. eexists. split; reflexivity. Qed.

(** ** The input controller *)

Section Buttons.
Implicit Types (w : world) (btn_e : Z) (p : bool).

(** A call with the stored value changes nothing. *)
Lemma button_event_same btns s m btn_e p btn :
  avr s = Some m → btn_e < BTN_COUNT →
  btns !! Z.to_nat btn_e = Some btn → pressed btn = p →
  arduboy_avr_button_event btn_e p (btns, s) = Some (btns, s).
Proof.
  intros Hm Hid Hb Hp. unfold arduboy_avr_button_event. rewrite Hm.
  replace (btn_e <? BTN_COUNT) with true by (symmetry; by apply Z.ltb_lt).
  rewrite Hb. cbn [mbind option_bind]. rewrite Hp.
  by rewrite eqb_reflx.
Qed.

(** A call with another value raises the line once and stores the value. *)
Lemma button_event_edge btns s m btn_e p btn :
  avr s = Some m → btn_e < BTN_COUNT →
  btns !! Z.to_nat btn_e = Some btn → pressed btn ≠ p →
  arduboy_avr_button_event btn_e p (btns, s) =
    Some (<[Z.to_nat btn_e := set_pressed p btn]> btns,
          set_avr (Some (Mcu (avr_raise_irq (irq btn) (line_level p) (core m))
                             (mcu_eeprom m))) s).
Proof.
  intros Hm Hid Hb Hp. unfold arduboy_avr_button_event. rewrite Hm.
  replace (btn_e <? BTN_COUNT) with true by (symmetry; by apply Z.ltb_lt).
  rewrite Hb. cbn [mbind option_bind].
  replace (eqb (pressed btn) p) with false; [done|].
  symmetry. by apply eqb_false_iff.
Qed.

(** Repeating the value just stored changes nothing, however often. *)
Lemma button_events_repeat btn_e p (n : nat) w m btn :
  avr w.2 = Some m → btn_e < BTN_COUNT →
  w.1 !! Z.to_nat btn_e = Some btn → pressed btn = p →
  button_events (replicate n (btn_e, p)) w = Some w.
Proof.
  intros Hm Hid Hb Hp. destruct w as [btns s]. induction n as [|n IH]; [done|].
  cbn [replicate button_events].
  rewrite (button_event_same btns s m btn_e p btn) by done.
  exact IH.
Qed.
(** The effect of a call that changes the stored value. *)
Lemma button_event_edge_effect w m btn_e btn (i : nat) p :
  avr w.2 = Some m → 0 ≤ btn_e < BTN_COUNT →
  w.1 !! Z.to_nat btn_e = Some btn → irq btn = Some i → pressed btn ≠ p →
  ∃ w', arduboy_avr_button_event btn_e p w = Some w' ∧
        raised w' = raised w ++ [(i, if p then 0 else 1)] ∧
        line w' i = Some (if p then 0 else 1) ∧
        stored w' btn_e = Some p ∧
        (∀ j, j ≠ i → line w' j = line w j) ∧
        (∀ e, e ≠ btn_e → 0 ≤ e → stored w' e = stored w e) ∧
        is_Some (avr w'.2) ∧
        w'.1 !! Z.to_nat btn_e = Some (set_pressed p btn).
Proof.
  intros Hm Hid Hb Hi Hp. destruct w as [btns s]. cbn [fst snd] in *.
  assert (Z.to_nat btn_e < length btns)%nat as Hlen by (by eapply lookup_lt_Some).
  eexists. split; [apply (button_event_edge btns s m); [done | lia | done | done]|].
  unfold raised, line, stored. cbn [fst snd avr set_avr from_option mbind option_bind].
  rewrite Hm, Hi.
  cbn [from_option mbind option_bind avr_raise_irq core irq_raised irq_value].
  unfold line_level.
  split; [done|]. split; [by rewrite lookup_insert_eq|].
  split; [by rewrite list_lookup_insert_eq|].
  split; [intros j Hj; by rewrite lookup_insert_ne|].
  split; [|split; [done | by rewrite list_lookup_insert_eq]].
  intros e He He0. rewrite list_lookup_insert_ne; [done|]. lia.
Qed.
End Buttons.

(** C9.  For a valid button id of an active Session whose button has its
    line: a call with the stored value is a no-op; a call with another value
    raises the line once, to 0 for pressed and to 1 for released, and stores
    the value.  So from the released state a press followed by any number of
    repeated presses raises the line exactly once, and the release that
    follows raises it exactly once more. *)
Theorem arduboy_avr_button_event_edges
    (w : world) (m : mcu_t) (btn_e : Z) (btn : button_info) (i : nat) :
  avr w.2 = Some m → 0 ≤ btn_e < BTN_COUNT →
  w.1 !! Z.to_nat btn_e = Some btn → irq btn = Some i →
  (∀ p, pressed btn = p → arduboy_avr_button_event btn_e p w = Some w) ∧
  (∀ p, pressed btn ≠ p →
     ∃ w', arduboy_avr_button_event btn_e p w = Some w' ∧
           raised w' = raised w ++ [(i, if p then 0 else 1)] ∧
           line w' i = Some (if p then 0 else 1) ∧
           stored w' btn_e = Some p ∧
           (∀ j, j ≠ i → line w' j = line w j) ∧
           (∀ e, e ≠ btn_e → 0 ≤ e → stored w' e = stored w e)) ∧
  (pressed btn = false → ∀ n : nat,
     ∃ w1 w2,
       button_events ((btn_e, true) :: replicate n (btn_e, true)) w = Some w1 ∧
       raised w1 = raised w ++ [(i, 0)] ∧
       button_events [(btn_e, false)] w1 = Some w2 ∧
       raised w2 = raised w ++ [(i, 0); (i, 1)] ∧
       stored w2 btn_e = Some false).
Proof.
  intros Hm Hid Hb Hi. split; [|split].
  - intros p Hp. destruct w as [btns s].
    apply (button_event_same btns s m btn_e p btn); (done || lia).
  - intros p Hp.
    destruct (button_event_edge_effect w m btn_e btn i p)
      as (w' & H1 & H2 & H3 & H4 & H5 & H6 & _); [done..|].
    exists w'. done.
  - intros Hrel n.
    destruct (button_event_edge_effect w m btn_e btn i true)
      as (w1 & E1 & R1 & _ & _ & _ & _ & [m1 A1] & B1); [done.. | by rewrite Hrel |].
    destruct (button_event_edge_effect w1 m1 btn_e (set_pressed true btn) i false)
      as (w2 & E2 & R2 & _ & S2 & _); [done..|].
    exists w1, w2. cbn [button_events]. rewrite E1. cbn [mbind option_bind].
    rewrite (button_events_repeat btn_e true n w1 m1 (set_pressed true btn))
      by (done || lia).
    rewrite E2. cbn [mbind option_bind].
    split; [done|]. split; [exact R1|]. split; [done|].
    split; [|exact S2]. rewrite R2, R1, <- app_assoc. done.
Qed.

Lemma arduboy_avr_button_event_edges_witness :
  let w : world := (buttons_wired, session 0 cpu_Running 0 blank_lumamap []) in
  ∃ w', arduboy_avr_button_event BTN_A true w = Some w' ∧
        raised w' = [(4%nat, 0)] ∧ line w' 4%nat = Some 0 ∧
        stored w' BTN_A = Some true.
Proof.
  intros w.
  destruct (arduboy_avr_button_event_edges w (engine_at 0 cpu_Running) BTN_A
              (Btn BTN_A (Some 4%nat) "btn.a" "E" 6 false) 4%nat)
    as (_ & Hedge & _).
  - reflexivity.
  - unfold BTN_A, BTN_COUNT. lia.
  - reflexivity.
  - reflexivity.
  - destruct (Hedge true) as (w' & H1 & H2 & H3 & H4 & _).
    + simpl. discriminate.
    + exists w'. split; [exact H1|]. split; [exact H2|]. split; [exact H3 | exact H4].
Defined.

(** C10.  A button id at or beyond BTN_COUNT, or a call without a Session,
    does nothing: the call has a defined result (no entry of [buttons] is
    indexed, whatever the id), and the array, the stored states and the
    engine with its lines are what they were. *)
Theorem arduboy_avr_button_event_ignored (btn_e : Z) (p : bool) (w : world) :
  BTN_COUNT ≤ btn_e ∨ avr w.2 = None →
  arduboy_avr_button_event btn_e p w = Some w ∧
  (∀ w', arduboy_avr_button_event btn_e p w = Some w' →
     raised w' = raised w ∧ (∀ i, line w' i = line w i) ∧
     (∀ e, stored w' e = stored w e)).
Proof.
  intros H. assert (arduboy_avr_button_event btn_e p w = Some w) as Heq.
  { destruct w as [btns s]. unfold arduboy_avr_button_event. cbn [snd] in H.
    destruct (avr s) as [m|]; [|done].
    destruct H as [H|H]; [|done].
    replace (btn_e <? BTN_COUNT) with false by (symmetry; by apply Z.ltb_ge).
    done. }
  split; [exact Heq|]. intros w' Hw'. rewrite Heq in Hw'. by injection Hw' as <-.
Qed.

Lemma arduboy_avr_button_event_ignored_witness :
  let w : world := (buttons_wired, session 0 cpu_Running 0 blank_lumamap []) in
  arduboy_avr_button_event BTN_COUNT true w = Some w ∧
  arduboy_avr_button_event BTN_A true (w.1, arduboy_avr_teardown w.2)
    = Some (w.1, arduboy_avr_teardown w.2).
Proof.
  intros w. split.
  - apply (arduboy_avr_button_event_ignored BTN_COUNT true w).
    left. reflexivity.
  - apply (arduboy_avr_button_event_ignored BTN_A true (w.1, arduboy_avr_teardown w.2)).
    right. reflexivity.
Defined.

(** * Further properties of the code *)

(** ** The decoder *)

Lemma byte_of_bits_checked :
  forallb (λ v, byte_of_bits v =? v) (seqZ 0 256) = true.
Proof. vm_compute. reflexivity. Qed.

Lemma byte_of_bits_id (v : Z) : 0 ≤ v < 256 → byte_of_bits v = v.
Proof.
  intros Hv. pose proof byte_of_bits_checked as Hall.
  rewrite forallb_forall in Hall. apply Z.eqb_eq, Hall.
  apply list_elem_of_In, elem_of_seqZ. lia.
Qed.

(** X1.  Packing the cells of a snapshot gives the display memory back:
    the eight cells the decoder wrote for page [p], column [c] are the bits
    of the byte at [vram[p][c]], least significant first. *)
Theorem update_lumamap_pack (b : ssd1306_t) (lm : lumamap_t) (p c : nat) :
  wf_lumamap lm →
  (p < SSD1306_VIRT_PAGES)%nat → (c < SSD1306_VIRT_COLUMNS)%nat →
  0 ≤ vram_at b p c < 256 →
  pack_column (update_lumamap b lm) p c = vram_at b p c.
Proof.
  intros Hwf Hp Hc Hv.
  transitivity (byte_of_bits (vram_at b p c)); [|by apply byte_of_bits_id].
  unfold pack_column, byte_of_bits.
  destruct (update_lumamap_snapshot b lm Hwf) as [_ Hget].
  unfold SSD1306_VIRT_PAGES, SSD1306_VIRT_COLUMNS in *.
  assert (∀ y, (y < 8)%nat →
    lumamap_get (update_lumamap b lm) (p * 8 + y) c
      = Z.b2z (Z.testbit (vram_at b p c) (Z.of_nat y))) as Hcell.
  { intros y Hy. rewrite Hget by (unfold OLED_HEIGHT_PX, OLED_WIDTH_PX; lia).
    unfold luma_bit.
    replace ((p * 8 + y) / 8)%nat with p
      by (apply (Nat.div_unique _ 8 p y); lia).
    replace ((p * 8 + y) mod 8)%nat with y
      by (apply (Nat.mod_unique _ 8 p y); lia).
    done. }
  cbn [seq foldr]. rewrite !Hcell by lia. done.
Qed.

Lemma update_lumamap_pack_witness :
  let b := white_controller 64 in
  pack_column (update_lumamap b blank_lumamap) 7 127 = 255.
Proof.
  intros b.
  rewrite (update_lumamap_pack b blank_lumamap 7 127).
  - reflexivity.
  - exact blank_lumamap_wf.
  - unfold SSD1306_VIRT_PAGES. lia.
  - unfold SSD1306_VIRT_COLUMNS. lia.
  - vm_compute. split; [discriminate | reflexivity].
Defined.

Lemma blank_lumamap_binary : binary_lumamap blank_lumamap.
Proof.
  intros r c. unfold lumamap_get, blank_lumamap.
  destruct (replicate _ _ !! r) as [row|] eqn:Er; [|by left].
  apply lookup_replicate in Er as [-> _]. cbn [mbind option_bind].
  destruct (replicate _ _ !! c) as [x|] eqn:Ec; [|by left].
  apply lookup_replicate in Ec as [-> _]. by left.
Qed.

Lemma update_lumamap_binary (b : ssd1306_t) (lm : lumamap_t) :
  wf_lumamap lm → binary_lumamap lm → binary_lumamap (update_lumamap b lm).
Proof.
  intros Hwf Hbin r c. destruct (update_lumamap_cells b lm Hwf) as [_ Hget].
  rewrite Hget. destruct (_ && _); [|apply Hbin].
  unfold luma_bit. destruct (Z.testbit _ _); [by right | by left].
Qed.

(** What a step of the module can do to the LumaMap. *)
Lemma module_step_lumamap (w w' : world) :
  module_step w w' →
  lumamap w'.2 = lumamap w.2 ∨
  lumamap w'.2 = update_lumamap (ssd1306 w.2) (lumamap w.2).
Proof.
  intros Hstep. destruct Hstep as
    [btns s | btns s a when s' next Ht | btns s btn_e p w' Hb
    | btns s bytes r s' He | btns s px | btns s | btns s b]; cbn [fst snd].
  - destruct (frame_boundary (ssd1306 s)) eqn:E.
    + right. by rewrite hook_snapshot.
    + left. by rewrite hook_idle.
  - left. by eapply update_screen_lumamap.
  - left. by apply (button_event_lumamap btn_e p (btns, s) w').
  - left. by eapply set_eeprom_lumamap.
  - by left.
  - left. unfold arduboy_avr_teardown. by destruct (avr s).
  - by left.
Qed.

(** X2.  The LumaMap keeps its shape and holds only luma bits, 0 or 1, in
    every state the module reaches, whatever the caller, the engine and the
    controller do. *)
Theorem lumamap_stays_binary (w w' : world) :
  wf_lumamap (lumamap w.2) → binary_lumamap (lumamap w.2) →
  module_steps w w' →
  wf_lumamap (lumamap w'.2) ∧ binary_lumamap (lumamap w'.2).
Proof.
  intros Hwf Hbin Hsteps. induction Hsteps as [w|w1 w2 w3 Hs IH Hstep]; [done|].
  destruct (IH Hwf Hbin) as [Hwf2 Hbin2].
  destruct (module_step_lumamap w2 w3 Hstep) as [-> | ->]; [done|].
  split; [by apply update_lumamap_cells | by apply update_lumamap_binary].
Qed.

Lemma lumamap_stays_binary_witness :
  let w : world := (buttons_wired, session 0 cpu_Running 64 blank_lumamap []) in
  let w' : world := (w.1, hook_ssd1306_write_data w.2) in
  wf_lumamap (lumamap w'.2) ∧ binary_lumamap (lumamap w'.2).
Proof.
  intros w w'. apply (lumamap_stays_binary w w').
  - exact blank_lumamap_wf.
  - exact blank_lumamap_binary.
  - apply (steps_more w w w'); [apply steps_none | apply step_notification].
Defined.

(** X3.  The decoder takes one snapshot per frame: a notification repeated
    with the controller as the hook left it does nothing more.  The hook
    touches the LumaMap and the dirty flag and nothing else: the engine, the
    yield flag, the pixel buffer, the display memory, the cursor, the
    channel, the contrast and all other flags are as before. *)
Theorem hook_ssd1306_write_data_once (s : arduboy_avr_mod_state) :
  let s' := hook_ssd1306_write_data s in
  hook_ssd1306_write_data s' = s' ∧
  avr s' = avr s ∧ yield s' = yield s ∧ pixels s' = pixels s ∧
  vram (ssd1306 s') = vram (ssd1306 s) ∧
  cursor (ssd1306 s') = cursor (ssd1306 s) ∧
  di_pin (ssd1306 s') = di_pin (ssd1306 s) ∧
  contrast_register (ssd1306 s') = contrast_register (ssd1306 s) ∧
  ∀ bit, 0 ≤ bit → bit ≠ SSD1306_FLAG_DIRTY →
    ssd1306_get_flag (ssd1306 s') bit = ssd1306_get_flag (ssd1306 s) bit.
Proof.
  intros s'. subst s'. destruct (frame_boundary (ssd1306 s)) eqn:E.
  - rewrite (hook_snapshot s E).
    split.
    + apply hook_idle. cbn [ssd1306 set_ssd1306]. unfold frame_boundary.
      rewrite ssd1306_get_set_flag by done.
      rewrite Z.eqb_refl. by rewrite andb_false_r.
    + cbn [avr yield pixels ssd1306 set_ssd1306 set_lumamap ssd1306_set_flag
           vram cursor di_pin contrast_register].
      repeat (split; [done|]). intros bit Hbit Hne.
      rewrite ssd1306_get_set_flag by done.
      destruct (Z.eqb_spec bit SSD1306_FLAG_DIRTY); done.
  - rewrite (hook_idle s E). split; [by apply hook_idle|].
    repeat (split; [done|]). done.
Qed.

(** ** The renderer *)

(** A row of stores does not fit: the pointer leaves the buffer. *)
Lemma store_row_overflow (f : Z → Z) (xs : list Z) : ∀ (k : nat) (px : list Z),
  (k ≤ length px)%nat → (length px < k + length xs)%nat →
  run_over (λ x, store_pixel (f x)) xs (k, px) = None.
Proof.
  induction xs as [|x xs IH]; intros k px Hk Hlen; cbn [length] in Hlen; [lia|].
  cbn [run_over store_pixel].
  destruct (decide (k < length px)%nat); [|done].
  cbn [mbind option_bind]. apply IH; rewrite length_insert; lia.
Qed.

Lemma store_rows_overflow (g : Z → Z → Z) (xs ys : list Z) :
  ∀ (k : nat) (px : list Z),
  (k ≤ length px)%nat → (length px < k + length ys * length xs)%nat →
  run_over (λ y, run_over (λ x, store_pixel (g y x)) xs) ys (k, px) = None.
Proof.
  induction ys as [|y ys IH]; intros k px Hk Hlen; cbn [length] in Hlen; [lia|].
  cbn [run_over].
  destruct (decide (k + length xs ≤ length px)%nat) as [Hfit|Hno].
  - destruct (store_row (g y) xs k px Hfit) as (px1 & Hrun & Hl & _).
    rewrite Hrun. cbn [mbind option_bind]. apply IH; lia.
  - rewrite store_row_overflow by lia. done.
Qed.

(** What lies outside the rows written is left alone. *)
Lemma store_rows_outside (g : Z → Z → Z) (xs ys : list Z) :
  ∀ (k : nat) (px px' : list Z) (k' : nat),
  run_over (λ y, run_over (λ x, store_pixel (g y x)) xs) ys (k, px) = Some (k', px') →
  (k ≤ length px)%nat →
  ∀ m, (m < k ∨ k + length ys * length xs ≤ m)%nat → px' !! m = px !! m.
Proof.
  induction ys as [|y ys IH]; intros k px px' k' Hrun Hk m Hm.
  - cbn in Hrun. by simplify_eq.
  - cbn [run_over length] in *.
    destruct (decide (k + length xs ≤ length px)%nat) as [Hfit|Hno].
    + destruct (store_row (g y) xs k px Hfit) as (px1 & Hrun1 & Hl & Hget).
      rewrite Hrun1 in Hrun. cbn [mbind option_bind] in Hrun.
      rewrite (IH _ _ _ _ Hrun) by lia. rewrite Hget.
      rewrite decide_False by lia. done.
    + rewrite store_row_overflow in Hrun by lia. done.
Qed.

(** The frame the renderer draws with the display on. *)
Lemma render_screen_pixels (b : ssd1306_t) (s : arduboy_avr_mod_state) :
  ssd1306_get_flag b SSD1306_FLAG_DISPLAY_ON = true →
  (frame_pixels ≤ length (pixels s))%nat →
  ∃ px', render_screen b s = Some (set_pixels px' s) ∧
    length px' = length (pixels s) ∧
    (∀ i j, (i < Z.to_nat OLED_HEIGHT_PX)%nat → (j < Z.to_nat OLED_WIDTH_PX)%nat →
       px' !! (i * Z.to_nat OLED_WIDTH_PX + j)%nat =
         Some (pixel_colour b
                 (lumamap_get (lumamap s)
                    (Z.to_nat (mirror OLED_HEIGHT_PX
                                 (ssd1306_get_flag b SSD1306_FLAG_COM_SCAN_NORMAL)
                                 (Z.of_nat i)))
                    (Z.to_nat (mirror OLED_WIDTH_PX
                                 (ssd1306_get_flag b SSD1306_FLAG_SEGMENT_REMAP_0)
                                 (Z.of_nat j)))))) ∧
    (∀ m, (frame_pixels ≤ m)%nat → px' !! m = pixels s !! m).
Proof.
  intros Hon Hlen. rewrite render_screen_on by done.
  set (fx := ssd1306_get_flag b SSD1306_FLAG_SEGMENT_REMAP_0).
  set (fy := ssd1306_get_flag b SSD1306_FLAG_COM_SCAN_NORMAL).
  unfold frame_pixels in *.
  destruct (store_rows
              (λ y x, pixel_colour b (lumamap_get (lumamap s) (Z.to_nat y) (Z.to_nat x)))
              (scan_order OLED_WIDTH_PX fx) (scan_order OLED_HEIGHT_PX fy)
              0%nat (pixels s))
    as (px' & Hrun & Hl & _ & Hget).
  { rewrite !scan_order_length. unfold OLED_WIDTH_PX, OLED_HEIGHT_PX in *. lia. }
  rewrite Hrun. cbn [mbind option_bind snd]. exists px'.
  split; [done|]. split; [done|]. split.
  - intros i j Hi Hj.
    specialize (Hget i j (mirror OLED_HEIGHT_PX fy (Z.of_nat i))
                  (mirror OLED_WIDTH_PX fx (Z.of_nat j))).
    rewrite scan_order_length in Hget. cbn [Nat.add] in Hget.
    apply Hget; by apply scan_order_lookup.
  - intros m Hm. apply (store_rows_outside _ _ _ _ _ _ _ Hrun); [lia|]. right.
    rewrite !scan_order_length. unfold OLED_WIDTH_PX, OLED_HEIGHT_PX in *. lia.
Qed.

(** X4.  With the display on the renderer draws exactly one frame: the
    buffer keeps its length, whatever the caller holds after the first
    width x height pixels is left alone, and the engine, the controller, the
    yield flag and the LumaMap are not touched. *)
Theorem render_screen_frame_only (b : ssd1306_t) (s : arduboy_avr_mod_state) :
  ssd1306_get_flag b SSD1306_FLAG_DISPLAY_ON = true →
  (frame_pixels ≤ length (pixels s))%nat →
  ∃ s', render_screen b s = Some s' ∧
    length (pixels s') = length (pixels s) ∧
    (∀ m, (frame_pixels ≤ m)%nat → pixels s' !! m = pixels s !! m) ∧
    avr s' = avr s ∧ ssd1306 s' = ssd1306 s ∧ yield s' = yield s ∧
    lumamap s' = lumamap s.
Proof.
  intros Hon Hlen.
  destruct (render_screen_pixels b s Hon Hlen) as (px' & Hr & Hl & _ & Hout).
  exists (set_pixels px' s). done.
Qed.

Lemma render_screen_frame_only_witness :
  let b := white_controller 2 in
  let s := session 0 cpu_Running 2 blank_lumamap (replicate (Z.to_nat 8200) 5) in
  ∃ s', render_screen b s = Some s' ∧ pixels s' !! Z.to_nat 8199 = Some 5.
Proof.
  intros b s.
  destruct (render_screen_frame_only b s) as (s' & Hr & _ & Hout & _).
  - reflexivity.
  - vm_compute. lia.
  - exists s'. split; [exact Hr|]. rewrite Hout by (vm_compute; lia).
    vm_compute. reflexivity.
Defined.

Lemma render_screen_overflow (b : ssd1306_t) (s : arduboy_avr_mod_state) :
  ssd1306_get_flag b SSD1306_FLAG_DISPLAY_ON = true →
  (length (pixels s) < frame_pixels)%nat →
  render_screen b s = None.
Proof.
  intros Hon Hlen. rewrite render_screen_on by done.
  rewrite store_rows_overflow; [done | lia |].
  rewrite !scan_order_length. unfold frame_pixels, OLED_WIDTH_PX, OLED_HEIGHT_PX in *.
  lia.
Qed.

(** X5.  The renderer does not check the caller's buffer: with the display
    on and fewer than width x height pixels, the stores run past its end and
    the call, and with it the firing of the frame timer, has no defined
    result. *)
Theorem render_screen_short_buffer (b : ssd1306_t) (s : arduboy_avr_mod_state) :
  ssd1306_get_flag b SSD1306_FLAG_DISPLAY_ON = true →
  (length (pixels s) < frame_pixels)%nat →
  render_screen b s = None ∧
  (ssd1306 s = b → ∀ a when, update_screen a when s = None).
Proof.
  intros Hon Hlen. split; [by apply render_screen_overflow|].
  intros <- a when. unfold update_screen. by rewrite render_screen_overflow.
Qed.

Lemma render_screen_short_buffer_witness :
  render_screen (white_controller 2)
    (session 0 cpu_Running 2 blank_lumamap (replicate (Z.to_nat 8191) 5)) = None.
Proof.
  destruct (render_screen_short_buffer (white_controller 2)
              (session 0 cpu_Running 2 blank_lumamap (replicate (Z.to_nat 8191) 5)))
    as [H _].
  - reflexivity.
  - vm_compute. lia.
  - exact H.
Defined.

(** X6.  Rendering is idempotent: a frame rendered again over its own
    result, with the controller and the LumaMap unchanged, is the same
    frame. *)
Theorem render_screen_idempotent (b : ssd1306_t) (s s' : arduboy_avr_mod_state) :
  render_screen b s = Some s' → render_screen b s' = Some s'.
Proof.
  intros Hr. destruct (ssd1306_get_flag b SSD1306_FLAG_DISPLAY_ON) eqn:Hon.
  - destruct (decide (frame_pixels ≤ length (pixels s))%nat) as [Hlen|Hshort].
    + destruct (render_screen_pixels b s Hon Hlen) as (px1 & Hr1 & Hl1 & Hin1 & Hout1).
      rewrite Hr1 in Hr. injection Hr as <-.
      destruct (render_screen_pixels b (set_pixels px1 s) Hon)
        as (px2 & Hr2 & Hl2 & Hin2 & Hout2); [cbn [pixels set_pixels]; lia|].
      rewrite Hr2. cbn [set_pixels avr ssd1306 yield lumamap pixels] in *.
      assert (px2 = px1) as ->; [|done].
      apply list_eq. intros m.
      destruct (decide (m < frame_pixels)%nat) as [Hm|Hm].
      * pose proof (Nat.div_mod_eq m (Z.to_nat OLED_WIDTH_PX)) as Hdm.
        assert (m mod Z.to_nat OLED_WIDTH_PX < Z.to_nat OLED_WIDTH_PX)%nat as Hj
          by (apply Nat.mod_upper_bound; unfold OLED_WIDTH_PX; lia).
        assert (m / Z.to_nat OLED_WIDTH_PX < Z.to_nat OLED_HEIGHT_PX)%nat as Hi.
        { apply Nat.Div0.div_lt_upper_bound.
          unfold frame_pixels, OLED_WIDTH_PX, OLED_HEIGHT_PX in *. lia. }
        replace m with (m / Z.to_nat OLED_WIDTH_PX * Z.to_nat OLED_WIDTH_PX
                        + m mod Z.to_nat OLED_WIDTH_PX)%nat by lia.
        rewrite Hin2 by done. rewrite Hin1 by done. done.
      * rewrite Hout2 by lia. done.
    + rewrite render_screen_overflow in Hr by (done || lia). done.
  - assert (∀ t, render_screen b t = Some t) as Heq
      by (intros t; unfold render_screen; by rewrite Hon).
    rewrite Heq in Hr. injection Hr as <-. apply Heq.
Qed.

Lemma render_screen_idempotent_witness :
  let b := white_controller 2 in
  let s := session 0 cpu_Running 2 blank_lumamap (replicate (Z.to_nat 8192) 5) in
  ∃ s', render_screen b s = Some s' ∧ render_screen b s' = Some s'.
Proof.
  intros b s.
  destruct (render_screen_pixels b s) as (px' & Hr & _).
  - reflexivity.
  - vm_compute. lia.
  - exists (set_pixels px' s). split; [exact Hr|].
    exact (render_screen_idempotent b s (set_pixels px' s) Hr).
Defined.

(** ** Colours *)

Lemma colours_visible_checked : forallb colours_visible (seqZ 0 256) = true.
Proof. vm_compute. reflexivity. Qed.

Lemma colours_visible_all (c : Z) : 0 ≤ c ≤ 255 → colours_visible c = true.
Proof.
  intros Hc. pose proof colours_visible_checked as Hall.
  rewrite forallb_forall in Hall.
  apply Hall. apply list_elem_of_In, elem_of_seqZ. lia.
Qed.

Lemma colours_visible_elim (c : Z) :
  colours_visible c = true →
  ∀ invert,
    get_fg_colour invert (contrast_to_opacity c)
      ≠ get_bg_colour invert (contrast_to_opacity c) ∧
    alpha_of (get_fg_colour invert (contrast_to_opacity c)) = 255 ∧
    alpha_of (get_bg_colour invert (contrast_to_opacity c)) = 255.
Proof.
  unfold colours_visible. cbv zeta. cbn [forallb].
  rewrite !andb_true_iff, !negb_true_iff, !Z.eqb_eq, !Z.eqb_neq.
  intros H invert. destruct invert; tauto.
Qed.

Lemma pixel_colour_unfold (b : ssd1306_t) (luma : Z) :
  pixel_colour b luma =
    if luma =? 0
    then get_bg_colour (ssd1306_get_flag b SSD1306_FLAG_DISPLAY_INVERTED)
           (contrast_to_opacity (contrast_register b))
    else get_fg_colour (ssd1306_get_flag b SSD1306_FLAG_DISPLAY_INVERTED)
           (contrast_to_opacity (contrast_register b)).
Proof. reflexivity. Qed.

(** X7.  Whatever the contrast and the invert flag, a lit and an unlit pixel
    get different colours, and both colours are opaque. *)
Theorem colours_always_visible (b : ssd1306_t) :
  0 ≤ contrast_register b ≤ 255 →
  pixel_colour b 1 ≠ pixel_colour b 0 ∧
  (∀ luma, alpha_of (pixel_colour b luma) = 255) ∧
  (∀ luma, pixel_colour b luma = pixel_colour b (if luma =? 0 then 0 else 1)).
Proof.
  intros Hc.
  destruct (colours_visible_elim _ (colours_visible_all _ Hc)
              (ssd1306_get_flag b SSD1306_FLAG_DISPLAY_INVERTED))
    as (Hd & Hf & Hb).
  pose proof (pixel_colour_unfold b) as Hpc.
  revert Hpc Hd Hf Hb.
  generalize (contrast_to_opacity (contrast_register b)) as op.
  generalize (ssd1306_get_flag b SSD1306_FLAG_DISPLAY_INVERTED) as inv.
  generalize (pixel_colour b) as pc.
  intros pc inv op Hpc Hd Hf Hb.
  split; [|split].
  - rewrite !Hpc. exact Hd.
  - intros luma. rewrite Hpc. destruct (luma =? 0); assumption.
  - intros luma. rewrite !Hpc. destruct (luma =? 0); reflexivity.
Qed.

Lemma colours_always_visible_witness :
  pixel_colour (white_controller 1) 1 ≠ pixel_colour (white_controller 1) 0.
Proof.
  assert (0 ≤ contrast_register (white_controller 1) ≤ 255) as Hc
    by (cbn; lia).
  destruct (colours_always_visible (white_controller 1) Hc) as [H _].
  exact H.
Defined.

(** X8.  Without invert the foreground gray grows with the contrast and
    stays between 127 and 254: the screen is never darker than half
    brightness and never pure white. *)
Theorem gray_level_range (c1 c2 : Z) :
  0 ≤ c1 ≤ c2 → c2 ≤ 255 →
  let gray c := red_of (get_fg_colour false (contrast_to_opacity c)) in
  127 ≤ gray c1 ∧ gray c1 ≤ gray c2 ∧ gray c2 ≤ 254 ∧
  gray 0 = 127 ∧ gray 255 = 254.
Proof.
  intros H1 H2 gray. subst gray. cbv beta.
  destruct (colours_as_specified_elim c1 (colours_as_specified_all c1 ltac:(lia)))
    as (_ & -> & _).
  destruct (colours_as_specified_elim c2 (colours_as_specified_all c2 ltac:(lia)))
    as (_ & -> & _).
  destruct (colours_as_specified_elim 0 (colours_as_specified_all 0 ltac:(lia)))
    as (_ & -> & _).
  destruct (colours_as_specified_elim 255 (colours_as_specified_all 255 ltac:(lia)))
    as (_ & -> & _).
  rewrite !gray_level.
  split; [apply Z.div_le_lower_bound; lia|].
  split; [apply Z.div_le_mono; lia|].
  split; [apply Z.lt_succ_r, Z.div_lt_upper_bound; lia|].
  split; reflexivity.
Qed.

Lemma gray_level_range_witness :
  red_of (get_fg_colour false (contrast_to_opacity 10))
    ≤ red_of (get_fg_colour false (contrast_to_opacity 200)).
Proof.
  destruct (gray_level_range 10 200) as (_ & H & _).
  - lia.
  - lia.
  - exact H.
Defined.

Lemma ssd1306_set_flag_same (b : ssd1306_t) (bit : Z) :
  0 ≤ bit → ssd1306_set_flag b bit (ssd1306_get_flag b bit) = b.
Proof.
  intros Hbit. destruct b as [v f cur di con].
  unfold ssd1306_set_flag at 1. cbn [vram cursor di_pin contrast_register]. f_equal.
  apply Z.bits_inj'. intros n Hn.
  pose proof (ssd1306_set_flag_testbit (Ssd v f cur di con) bit n
                (ssd1306_get_flag (Ssd v f cur di con) bit) Hbit Hn) as Ht.
  unfold ssd1306_set_flag in Ht at 1. cbn [flags vram cursor di_pin contrast_register] in Ht.
  cbn [flags]. rewrite Ht.
  destruct (Z.eqb_spec n bit) as [->|]; [|done].
  by rewrite ssd1306_get_flag_testbit.
Qed.

Lemma ssd1306_set_flag_twice (b : ssd1306_t) (bit : Z) (v1 v2 : bool) :
  ssd1306_set_flag (ssd1306_set_flag b bit v1) bit v2 = ssd1306_set_flag b bit v2.
Proof.
  unfold ssd1306_set_flag. cbn [vram flags cursor di_pin contrast_register].
  f_equal. apply Z.bits_inj'. intros n Hn.
  rewrite !Z.lor_spec, !Z.land_spec, !Z.lor_spec, !Z.land_spec, !Z.lnot_spec by lia.
  destruct v1, v2; rewrite ?Z.bits_0;
    destruct (Z.testbit (Z.shiftl 1 bit) n), (Z.testbit (flags b) n); reflexivity.
Qed.

(** X9.  Toggling the invert flag swaps the two colours of the frame: what
    was drawn in the foreground colour is drawn in the background colour and
    the other way round; toggling twice gives the controller back. *)
Theorem toggle_invert_swaps (b : ssd1306_t) (luma : Z) :
  pixel_colour (toggle_invert b) luma
    = pixel_colour b (if luma =? 0 then 1 else 0) ∧
  toggle_invert (toggle_invert b) = b.
Proof.
  assert (ssd1306_get_flag (toggle_invert b) SSD1306_FLAG_DISPLAY_INVERTED
          = negb (ssd1306_get_flag b SSD1306_FLAG_DISPLAY_INVERTED)) as Hinv.
  { unfold toggle_invert. by rewrite ssd1306_get_set_flag. }
  split.
  - rewrite !pixel_colour_unfold, Hinv.
    change (contrast_register (toggle_invert b)) with (contrast_register b).
    generalize (contrast_to_opacity (contrast_register b)) as op.
    generalize (ssd1306_get_flag b SSD1306_FLAG_DISPLAY_INVERTED) as inv.
    intros inv op. destruct (luma =? 0).
    + change (1 =? 0) with false. cbv iota. destruct inv; reflexivity.
    + change (0 =? 0) with true. cbv iota. destruct inv; reflexivity.
  - unfold toggle_invert at 1. rewrite Hinv, negb_involutive.
    unfold toggle_invert. rewrite ssd1306_set_flag_twice.
    by apply ssd1306_set_flag_same.
Qed.

Lemma land_disjoint (hi lo k : Z) :
  0 ≤ k → 0 ≤ lo < 2 ^ k → Z.land (hi * 2 ^ k) lo = 0.
Proof.
  intros Hk Hlo. destruct (Z.eq_dec lo 0) as [->|Hne]; [apply Z.land_0_r|].
  apply Z.bits_inj'. intros n Hn. rewrite Z.land_spec, Z.bits_0.
  destruct (Z.lt_ge_cases n k) as [Hlt|Hge].
  - by rewrite Z.mul_pow2_bits_low by lia.
  - rewrite (Z.bits_above_log2 lo n), andb_false_r; [done | lia |].
    assert (Z.log2 lo < k) by (apply Z.log2_lt_pow2; lia). lia.
Qed.

Lemma lor_disjoint_add (hi lo k : Z) :
  0 ≤ k → 0 ≤ lo < 2 ^ k → Z.lor (Z.shiftl hi k) lo = hi * 2 ^ k + lo.
Proof.
  intros Hk Hlo. rewrite Z.shiftl_mul_pow2 by done.
  pose proof (land_disjoint hi lo k Hk Hlo) as Hd.
  rewrite <- Z.lxor_lor by done. symmetry. by apply Z.add_nocarry_lxor.
Qed.

Lemma RGB_sum (r g b : Z) :
  0 ≤ r < 256 → 0 ≤ g < 256 → 0 ≤ b < 256 →
  RGB r g b = 4278190080 + r * 65536 + g * 256 + b.
Proof.
  intros Hr Hg Hb. unfold RGB.
  rewrite (lor_disjoint_add g b 8) by lia.
  rewrite (lor_disjoint_add r (g * 2 ^ 8 + b) 16) by lia.
  change 4278190080 with (Z.shiftl 255 24) at 1.
  rewrite (lor_disjoint_add 255 _ 24) by lia. lia.
Qed.

(** X10.  A colour built by RGB is an opaque ARGB pixel: the alpha byte is
    255 and the three channels read back as given.  Held in an [int] it is
    negative. *)
Theorem RGB_channels (r g b : Z) :
  0 ≤ r < 256 → 0 ≤ g < 256 → 0 ≤ b < 256 →
  let px := int_of_unsigned (RGB r g b) in
  alpha_of px = 255 ∧ red_of px = r ∧ green_of px = g ∧ blue_of px = b ∧
  - 2 ^ 31 ≤ px < 0.
Proof.
  intros Hr Hg Hb px. subst px. rewrite RGB_sum by done.
  unfold int_of_unsigned.
  replace (4278190080 + r * 65536 + g * 256 + b <? 2 ^ 31) with false
    by (symmetry; apply Z.ltb_ge; lia).
  unfold alpha_of, red_of, green_of, blue_of.
  assert (∀ x, Z.land x 255 = x mod 2 ^ 8) as Hmask
    by (intros x; change 255 with (Z.ones 8); by rewrite Z.land_ones).
  rewrite !Hmask, !Z.shiftr_div_pow2 by lia.
  change (2 ^ 8) with 256. change (2 ^ 16) with 65536. change (2 ^ 24) with 16777216.
  change (2 ^ 32) with 4294967296. change (2 ^ 31) with 2147483648.
  repeat split; try lia;
    match goal with |- _ = _ => Z.div_mod_to_equations; lia end.
Qed.

Lemma RGB_channels_witness :
  red_of (int_of_unsigned (RGB 200 100 50)) = 200.
Proof.
  destruct (RGB_channels 200 100 50) as (_ & H & _); [lia | lia | lia | exact H].
Defined.

(** ** From the display memory to the pixel buffer *)

(** X11.  A frame completed by the firmware reaches the caller: after a
    notification at the frame boundary, the next firing of the frame timer
    with the display on sets the yield flag and draws, at row [i] and column
    [j] of the buffer, the colour of the bit of the display memory that the
    mirroring flags map there. *)
Theorem snapshot_then_render
    (s : arduboy_avr_mod_state) (a : avr_t) (when : Z) :
  frame_boundary (ssd1306 s) = true →
  ssd1306_get_flag (ssd1306 s) SSD1306_FLAG_DISPLAY_ON = true →
  wf_lumamap (lumamap s) →
  (frame_pixels ≤ length (pixels s))%nat →
  let b := ssd1306 s in
  ∃ s' next,
    update_screen a when (hook_ssd1306_write_data s) = Some (s', next) ∧
    yield s' = true ∧
    ∀ i j, (i < Z.to_nat OLED_HEIGHT_PX)%nat → (j < Z.to_nat OLED_WIDTH_PX)%nat →
      pixels s' !! (i * Z.to_nat OLED_WIDTH_PX + j)%nat =
        Some (pixel_colour b
                (luma_bit b
                   (Z.to_nat (mirror OLED_HEIGHT_PX
                                (ssd1306_get_flag b SSD1306_FLAG_COM_SCAN_NORMAL)
                                (Z.of_nat i)))
                   (Z.to_nat (mirror OLED_WIDTH_PX
                                (ssd1306_get_flag b SSD1306_FLAG_SEGMENT_REMAP_0)
                                (Z.of_nat j))))).
Proof.
  intros Hfb Hon Hwf Hlen b. rewrite (hook_snapshot s Hfb). fold b.
  set (b1 := ssd1306_set_flag b SSD1306_FLAG_DIRTY false).
  set (s1 := set_ssd1306 b1 (set_lumamap (update_lumamap b (lumamap s)) s)).
  assert (∀ bit, 0 ≤ bit → bit ≠ SSD1306_FLAG_DIRTY →
            ssd1306_get_flag b1 bit = ssd1306_get_flag b bit) as Hflag.
  { intros bit H0 Hne. unfold b1. rewrite ssd1306_get_set_flag by done.
    destruct (Z.eqb_spec bit SSD1306_FLAG_DIRTY); done. }
  destruct (render_screen_pixels b1 s1) as (px' & Hr & _ & Hin & _).
  { rewrite Hflag by done. exact Hon. }
  { exact Hlen. }
  unfold update_screen. change (ssd1306 s1) with b1. rewrite Hr.
  cbn [mbind option_bind]. eexists _, _. split; [done|]. split; [done|].
  intros i j Hi Hj. cbn [pixels set_yield set_pixels]. rewrite Hin by done.
  rewrite !Hflag by done. change (lumamap s1) with (update_lumamap b (lumamap s)).
  destruct (update_lumamap_snapshot b (lumamap s) Hwf) as [_ Hget].
  assert (∀ l, pixel_colour b1 l = pixel_colour b l) as Hcol.
  { intros l. unfold pixel_colour. rewrite Hflag by done. done. }
  rewrite Hcol. rewrite Hget; [done | |].
  - unfold mirror. destruct (ssd1306_get_flag b SSD1306_FLAG_COM_SCAN_NORMAL);
      unfold OLED_HEIGHT_PX in *; lia.
  - unfold mirror. destruct (ssd1306_get_flag b SSD1306_FLAG_SEGMENT_REMAP_0);
      unfold OLED_WIDTH_PX in *; lia.
Qed.

Lemma snapshot_then_render_witness :
  let s := session 0 cpu_Running 66 blank_lumamap (replicate (Z.to_nat 8192) 5) in
  ∃ s' next,
    update_screen (core (engine_at 0 cpu_Running)) 0 (hook_ssd1306_write_data s)
      = Some (s', next) ∧
    pixels s' !! 0%nat = Some (pixel_colour (ssd1306 s) 1).
Proof.
  intros s.
  destruct (snapshot_then_render s (core (engine_at 0 cpu_Running)) 0)
    as (s' & next & Hu & _ & Hpx).
  - reflexivity.
  - reflexivity.
  - exact blank_lumamap_wf.
  - vm_compute. lia.
  - exists s', next. split; [exact Hu|].
    assert (0 < Z.to_nat OLED_HEIGHT_PX)%nat as Hi by (vm_compute; lia).
    assert (0 < Z.to_nat OLED_WIDTH_PX)%nat as Hj by (vm_compute; lia).
    specialize (Hpx 0%nat 0%nat Hi Hj).
    change (0 * Z.to_nat OLED_WIDTH_PX + 0)%nat with 0%nat in Hpx.
    rewrite Hpx.
    replace (luma_bit _ _ _) with 1 by (vm_compute; reflexivity).
    reflexivity.
Defined.

(** ** The frame scheduler *)

Lemma frame_period_no_wrap (a : avr_t) :
  0 ≤ frequency a < 2 ^ 32 →
  frame_period a = frequency a * 16666 / 1000000.
Proof.
  intros Hf. unfold frame_period, avr_usec_to_cycles, REFRESH_PERIOD_US.
  rewrite Z.mod_small; [done|]. lia.
Qed.

(** X12.  For a 32-bit clock frequency the frame period is
    [frequency * 16666 / 1000000] cycles, without wrap-around; sixty periods
    fit in a second of engine time.  A firing of the timer asks for a cycle
    after the current one exactly when the frequency is at least 61 Hz:
    below that the period is zero and the timer is re-armed for the cycle it
    fired at. *)
Theorem update_screen_advances
    (a : avr_t) (when : Z) (s s' : arduboy_avr_mod_state) (next : Z) :
  0 ≤ frequency a < 2 ^ 32 →
  0 ≤ cycle a → cycle a + frame_period a < 2 ^ 64 →
  update_screen a when s = Some (s', next) →
  next = cycle a + frequency a * 16666 / 1000000 ∧
  (cycle a < next ↔ 61 ≤ frequency a) ∧
  60 * (next - cycle a) ≤ frequency a.
Proof.
  intros Hf Hc Hfit Hu.
  destruct (update_screen_result a when s s' next Hu) as (_ & _ & _ & ->).
  pose proof (frame_period_no_wrap a Hf) as Hp.
  assert (0 ≤ frame_period a) as Hp0
    by (rewrite Hp; apply Z.div_pos; lia).
  rewrite Z.mod_small by lia. rewrite <- Hp.
  split; [done|]. rewrite Hp. split.
  - split.
    + intros Hlt. destruct (Z.lt_ge_cases (frequency a) 61) as [Hsmall|]; [|done].
      rewrite Z.div_small in Hlt by lia. lia.
    + intros Hbig.
      assert (1 ≤ frequency a * 16666 / 1000000)
        by (apply Z.div_le_lower_bound; lia). lia.
  - assert (frequency a * 16666 / 1000000 * 1000000 ≤ frequency a * 16666)
      by (rewrite Z.mul_comm; apply Z.mul_div_le; lia). lia.
Qed.

Lemma update_screen_advances_witness :
  let a := core (engine_at 1000 cpu_Running) in
  cycle a < 267656 ↔ 61 ≤ frequency a.
Proof.
  intros a.
  destruct (update_screen_advances a 1000
              (session 1000 cpu_Running 0 blank_lumamap [])
              (set_yield true (session 1000 cpu_Running 0 blank_lumamap []))
              267656)
    as (_ & H & _).
  - vm_compute. split; [discriminate | reflexivity].
  - vm_compute. discriminate.
  - vm_compute. reflexivity.
  - reflexivity.
  - exact H.
Defined.

(** ** The execution loop *)

Section LoopMore.
Variable avr_run : arduboy_avr_mod_state → arduboy_avr_mod_state * Z.

Lemma burst_fuel_mono (fuel : nat) : ∀ (fuel' : nat) s r,
  burst avr_run fuel s = Some r → (fuel ≤ fuel')%nat →
  burst avr_run fuel' s = Some r.
Proof.
  induction fuel as [|fuel IH]; intros fuel' s r Hb Hle.
  - cbn [burst] in Hb. destruct (yield s) eqn:Ey; [|done].
    destruct fuel'; cbn [burst]; by rewrite Ey.
  - destruct fuel' as [|fuel']; [lia|]. cbn [burst] in *.
    destruct (yield s); [done|].
    destruct (avr_run s) as [s1 st]. destruct (terminal st); [done|].
    apply IH; [done | lia].
Qed.

(** The result of the loop does not depend on the bound put on the
    number of quanta: once it returns within some bound it returns the same
    value and state within every larger one. *)
Theorem arduboy_avr_loop_fuel (fuel fuel' : nat) (px : list Z)
    (s : arduboy_avr_mod_state) (r : bool * arduboy_avr_mod_state) :
  arduboy_avr_loop avr_run fuel px s = Some r → (fuel ≤ fuel')%nat →
  arduboy_avr_loop avr_run fuel' px s = Some r.
Proof.
  unfold arduboy_avr_loop. destruct (avr s); [|done].
  apply burst_fuel_mono.
Qed.

(** X13.  The loop starts every call afresh: with a Session, a yield flag
    left set by the previous frame and the buffer bound by the previous call
    have no influence, and the engine always runs at least one quantum before
    the yield flag is looked at. *)
Theorem arduboy_avr_loop_fresh (fuel : nat) (px q : list Z) (y : bool)
    (s : arduboy_avr_mod_state) :
  is_Some (avr s) →
  arduboy_avr_loop avr_run fuel px (set_yield y (set_pixels q s))
    = arduboy_avr_loop avr_run fuel px s ∧
  arduboy_avr_loop avr_run (S fuel) px s =
    (let '(s1, st) := avr_run (set_pixels px (set_yield false s)) in
     if terminal st then Some (false, s1) else burst avr_run fuel s1).
Proof.
  intros [m Hm]. unfold arduboy_avr_loop.
  cbn [avr set_yield set_pixels]. rewrite Hm. split; [done|].
  cbn [burst yield set_pixels set_yield]. done.
Qed.
End LoopMore.

Lemma arduboy_avr_loop_fuel_witness :
  let s := session 0 cpu_Running 0 blank_lumamap [] in
  arduboy_avr_loop timer_every_quantum 50 [1; 2; 3] s
    = Some (true, set_pixels [1; 2; 3] (set_yield true s)).
Proof.
  intros s.
  apply (arduboy_avr_loop_fuel timer_every_quantum 1 50).
  - reflexivity.
  - lia.
Defined.

Lemma arduboy_avr_loop_fresh_witness :
  let s := session 0 cpu_Running 0 blank_lumamap [] in
  arduboy_avr_loop timer_every_quantum 1 [1] (set_yield true (set_pixels [9] s))
    = arduboy_avr_loop timer_every_quantum 1 [1] s.
Proof.
  intros s.
  destruct (arduboy_avr_loop_fresh timer_every_quantum 1 [1] [9] true s) as [H _].
  - eexists. reflexivity.
  - exact H.
Defined.

(** ** Teardown *)

(** X14.  Teardown ends the Session and nothing else: the controller, the
    LumaMap, the yield flag and the buffer stay.  Afterwards every entry
    point refuses: the loop returns false without running the engine, both
    persistent-memory accessors return false and copy nothing, a button
    event changes nothing, and a second teardown is a no-op. *)
Theorem arduboy_avr_teardown_disables (s : arduboy_avr_mod_state) :
  let t := arduboy_avr_teardown s in
  avr t = None ∧
  ssd1306 t = ssd1306 s ∧ lumamap t = lumamap s ∧ yield t = yield s ∧
  pixels t = pixels s ∧
  arduboy_avr_teardown t = t ∧
  (∀ avr_run fuel px, arduboy_avr_loop avr_run fuel px t = Some (false, t)) ∧
  (∀ buf, arduboy_avr_get_eeprom t buf = Some (false, buf)) ∧
  (∀ buf, arduboy_avr_set_eeprom t buf = Some (false, t)) ∧
  (∀ btns btn_e p, arduboy_avr_button_event btn_e p (btns, t) = Some (btns, t)).
Proof.
  intros t. assert (avr t = None) as Ht.
  { subst t. unfold arduboy_avr_teardown. by destruct (avr s) eqn:E. }
  split; [done|].
  assert (ssd1306 t = ssd1306 s ∧ lumamap t = lumamap s ∧ yield t = yield s ∧
          pixels t = pixels s) as (H1 & H2 & H3 & H4).
  { subst t. unfold arduboy_avr_teardown. by destruct (avr s). }
  repeat (split; [done|]).
  split; [unfold arduboy_avr_teardown; by rewrite Ht|].
  split; [intros; unfold arduboy_avr_loop; by rewrite Ht|].
  split; [intros; unfold arduboy_avr_get_eeprom; by rewrite Ht|].
  split; [intros; unfold arduboy_avr_set_eeprom; by rewrite Ht|].
  intros. unfold arduboy_avr_button_event. by rewrite Ht.
Qed.

(** ** The input controller *)

(** The two things a button event can do. *)
Lemma button_event_cases (btn_e : Z) (p : bool) (w w' : world) :
  arduboy_avr_button_event btn_e p w = Some w' →
  w' = w ∨
  ∃ m btn, avr w.2 = Some m ∧ w.1 !! Z.to_nat btn_e = Some btn ∧
           w' = (<[Z.to_nat btn_e := set_pressed p btn]> w.1,
                 set_avr (Some (Mcu (avr_raise_irq (irq btn) (line_level p) (core m))
                                    (mcu_eeprom m))) w.2).
Proof.
  destruct w as [btns s]. unfold arduboy_avr_button_event. intros H.
  destruct (avr s) as [m|] eqn:Hm; [|left; by simplify_eq].
  destruct (btn_e <? BTN_COUNT); [|left; by simplify_eq].
  destruct (btns !! Z.to_nat btn_e) as [btn|] eqn:Hb; [|done].
  cbn [mbind option_bind] in H.
  destruct (negb (eqb (pressed btn) p)); [|left; by simplify_eq].
  right. exists m, btn. by simplify_eq.
Qed.

Lemma button_event_keeps_lines (btn_e : Z) (p : bool) (w w' : world) :
  lines_distinct w.1 → lines_follow_buttons w →
  arduboy_avr_button_event btn_e p w = Some w' →
  lines_distinct w'.1 ∧ lines_follow_buttons w'.
Proof.
  intros Hd Hf Hev.
  destruct (button_event_cases btn_e p w w' Hev) as [->|(m & btn & Hm & Hb & ->)];
    [done|].
  destruct w as [btns s]. cbn [fst snd] in *.
  set (id := Z.to_nat btn_e) in *.
  assert (∀ k b', <[id := set_pressed p btn]> btns !! k = Some b' →
            ∃ b0, btns !! k = Some b0 ∧ irq b' = irq b0 ∧
                  (k = id → pressed b' = p) ∧ (k ≠ id → b' = b0)) as Hlook.
  { intros k b' Hk. destruct (decide (k = id)) as [->|Hne].
    - rewrite list_lookup_insert_eq in Hk by (by eapply lookup_lt_Some).
      injection Hk as <-. exists btn. done.
    - rewrite list_lookup_insert_ne in Hk by done. exists b'. done. }
  split.
  - intros k1 k2 b1 b2 i H1 H2 I1 I2.
    destruct (Hlook _ _ H1) as (c1 & L1 & E1 & _).
    destruct (Hlook _ _ H2) as (c2 & L2 & E2 & _).
    apply (Hd k1 k2 c1 c2 i); congruence.
  - assert (∀ k b i, btns !! k = Some b → irq b = Some i →
              irq_value (core m) !! i = Some (line_level (pressed b))) as Hf'.
    { intros k b i Hk Hi. specialize (Hf k b i Hk Hi).
      unfold line in Hf. cbn [snd] in Hf. rewrite Hm in Hf. exact Hf. }
    intros k b' i Hk Hi. destruct (Hlook _ _ Hk) as (b0 & L0 & E0 & Hsame & Hother).
    unfold line. cbn [snd avr set_avr mbind option_bind core].
    destruct (decide (k = id)) as [->|Hne].
    + rewrite L0 in Hb. injection Hb as ->. rewrite Hsame by done.
      rewrite <- E0, Hi. cbn [avr_raise_irq irq_value].
      by rewrite lookup_insert_eq.
    + rewrite (Hother Hne) in *. destruct (irq btn) as [j|] eqn:Hj.
      * cbn [avr_raise_irq irq_value].
        rewrite lookup_insert_ne; [by eapply Hf'|].
        intros ->. apply Hne. by apply (Hd k id b0 btn i).
      * cbn [avr_raise_irq]. by eapply Hf'.
Qed.

(** X15.  Over any sequence of button events, for any ids and values, the
    lines keep following the buttons: if no two buttons share a line and
    every line is high for a released and low for a pressed button, the same
    holds after the sequence. *)
Theorem button_events_keep_lines (evs : list (Z * bool)) (w w' : world) :
  lines_distinct w.1 → lines_follow_buttons w →
  button_events evs w = Some w' →
  lines_distinct w'.1 ∧ lines_follow_buttons w'.
Proof.
  revert w. induction evs as [|[btn_e p] evs IH]; intros w Hd Hf Hev.
  - cbn in Hev. by simplify_eq.
  - cbn [button_events] in Hev.
    destruct (arduboy_avr_button_event btn_e p w) as [w1|] eqn:E1; [|done].
    cbn [mbind option_bind] in Hev.
    destruct (button_event_keeps_lines btn_e p w w1 Hd Hf E1) as [Hd1 Hf1].
    by apply (IH w1).
Qed.

Lemma buttons_wired_lookup (k : nat) (b : button_info) :
  buttons_wired !! k = Some b →
  irq b = Some k ∧ pressed b = false ∧ (k < 6)%nat.
Proof.
  intros H.
  do 6 (destruct k as [|k];
        [vm_compute in H; injection H as <-; repeat split; lia|]).
  vm_compute in H. discriminate.
Qed.

Lemma buttons_wired_lines :
  let w : world := (buttons_wired, session 0 cpu_Running 0 blank_lumamap []) in
  lines_distinct w.1 ∧ lines_follow_buttons w.
Proof.
  intros w. split.
  - intros k1 k2 b1 b2 i H1 H2 I1 I2. cbn [fst] in *.
    apply buttons_wired_lookup in H1 as (E1 & _ & _).
    apply buttons_wired_lookup in H2 as (E2 & _ & _). congruence.
  - intros k btn i Hk Hi. cbn [fst] in *.
    apply buttons_wired_lookup in Hk as (E & -> & Hlt).
    assert (i = k) as -> by congruence.
    do 6 (destruct k as [|k]; [vm_compute; reflexivity|]). lia.
Qed.

Lemma button_events_keep_lines_witness :
  let w : world := (buttons_wired, session 0 cpu_Running 0 blank_lumamap []) in
  ∃ w', button_events [(BTN_A, true); (BTN_B, true); (BTN_A, false)] w = Some w' ∧
        lines_follow_buttons w'.
Proof.
  intros w. eexists. split; [reflexivity|].
  eapply (button_events_keep_lines
            [(BTN_A, true); (BTN_B, true); (BTN_A, false)] w).
  - apply buttons_wired_lines.
  - apply buttons_wired_lines.
  - reflexivity.
Defined.

(** X16.  Debouncing is change detection: a sequence of values sent for one
    wired button of a Session raises its line once for every value that
    differs from the one before it, in order and at the level of that value,
    and leaves the last value stored. *)
Theorem button_events_raise_changes (ps : list bool) :
  ∀ (w : world) (m : mcu_t) (btn_e : Z) (btn : button_info) (i : nat),
  avr w.2 = Some m → 0 ≤ btn_e < BTN_COUNT →
  w.1 !! Z.to_nat btn_e = Some btn → irq btn = Some i →
  ∃ w', button_events (map (λ p, (btn_e, p)) ps) w = Some w' ∧
        raised w' = raised w
                    ++ map (λ p, (i, line_level p)) (changes (pressed btn) ps) ∧
        stored w' btn_e = Some (default (pressed btn) (last ps)).
Proof.
  induction ps as [|p ps IH]; intros w m btn_e btn i Hm Hid Hb Hi.
  - exists w. cbn [map button_events changes last default].
    rewrite app_nil_r. split; [done|]. split; [done|].
    unfold stored. by rewrite Hb.
  - cbn [map button_events changes].
    destruct (eqb (pressed btn) p) eqn:Ep.
    + apply eqb_prop in Ep. destruct w as [btns s]. cbn [fst snd] in *.
      rewrite (button_event_same btns s m btn_e p btn) by (done || lia).
      cbn [mbind option_bind].
      destruct (IH (btns, s) m btn_e btn i) as (w' & H1 & H2 & H3); [done..|].
      exists w'. split; [done|]. split; [done|]. rewrite H3. f_equal.
      rewrite last_cons. by destruct (last ps).
    + apply eqb_false_iff in Ep.
      destruct (button_event_edge_effect w m btn_e btn i p)
        as (w1 & E1 & R1 & _ & _ & _ & _ & [m1 A1] & B1); [done..|].
      rewrite E1. cbn [mbind option_bind].
      destruct (IH w1 m1 btn_e (set_pressed p btn) i) as (w' & H1 & H2 & H3);
        [done..|].
      exists w'. split; [done|]. split.
      * rewrite H2, R1, <- app_assoc. cbn [pressed set_pressed map app].
        unfold line_level. done.
      * rewrite H3. f_equal. cbn [pressed set_pressed].
        rewrite last_cons. by destruct (last ps).
Qed.

Lemma button_events_raise_changes_witness :
  let w : world := (buttons_wired, session 0 cpu_Running 0 blank_lumamap []) in
  ∃ w', button_events
          (map (λ p, (BTN_B, p)) [true; true; false; false; true]) w = Some w' ∧
        raised w' = [(5%nat, 0); (5%nat, 1); (5%nat, 0)].
Proof.
  intros w.
  destruct (button_events_raise_changes [true; true; false; false; true] w
              (engine_at 0 cpu_Running) BTN_B
              (Btn BTN_B (Some 5%nat) "btn.b" "B" 4 false) 5%nat)
    as (w' & H1 & H2 & _).
  - reflexivity.
  - unfold BTN_B, BTN_COUNT. lia.
  - reflexivity.
  - reflexivity.
  - exists w'. split; [exact H1 | exact H2].
Defined.

(** ** Setup *)

Lemma wire_buttons_wired (n : nat) : ∀ (k : nat) btns a,
  (k + n ≤ length btns)%nat →
  ∃ btns' a', wire_buttons (seq k n) (btns, a) = Some (btns', a') ∧
              wired k n btns a btns' a'.
Proof.
  induction n as [|n IH]; intros k btns a Hlen.
  - exists btns, a. split; [done|]. unfold wired.
    repeat (split; [done|]). split.
    + intros j b' Hj. exists b'. repeat (split; [done|]). intros ?. lia.
    + intros. lia.
  - cbn [seq wire_buttons]. unfold wire_button at 1.
    destruct (lookup_lt_is_Some_2 btns k) as [b Hb]; [lia|].
    rewrite Hb. cbn [mbind option_bind avr_alloc_irq].
    set (i := fresh (dom (irq_value a))).
    assert (i ∉ dom (irq_value a)) as Hfresh by apply is_fresh.
    set (btns1 := <[k := set_irq (Some i) b]> btns).
    set (a2 := avr_raise_irq (Some i) 1 _).
    assert (irq_value a2 = <[i := 1]> (irq_value a)) as Hv2.
    { unfold a2. cbn [avr_raise_irq irq_value]. apply insert_insert_eq. }
    destruct (IH (S k) btns1 a2) as (btns' & a' & Hrun & Hw).
    { unfold btns1. rewrite length_insert. lia. }
    exists btns', a'. split; [exact Hrun|].
    destruct Hw as (Hl & Hc & Hf & Hs & Hkeep & Hbtn & Hdist).
    assert (irq_value a' !! i = Some 1) as Hi1.
    { rewrite Hkeep; rewrite Hv2; [by rewrite lookup_insert_eq|].
      rewrite dom_insert_L. set_solver. }
    unfold wired. split; [unfold btns1 in Hl; by rewrite length_insert in Hl|].
    split; [done|]. split; [done|]. split; [done|]. split; [|split].
    + intros i' Hi'. rewrite Hkeep by (rewrite Hv2, dom_insert_L; set_solver).
      rewrite Hv2. rewrite lookup_insert_ne; [done|]. intros ->. done.
    + intros j b' Hj. destruct (Hbtn j b' Hj) as (b1 & L1 & P1 & Hout & Hin).
      unfold btns1 in L1. destruct (decide (j = k)) as [->|Hne].
      * rewrite list_lookup_insert_eq in L1 by lia. injection L1 as <-.
        exists b. split; [done|]. split; [by rewrite P1|].
        split; [intros; lia|]. intros _. exists i.
        rewrite (Hout ltac:(lia)). done.
      * rewrite list_lookup_insert_ne in L1 by done.
        exists b1. split; [done|]. split; [done|]. split.
        -- intros Hj'. apply Hout. lia.
        -- intros Hj'. destruct (Hin ltac:(lia)) as (i' & I1 & I2 & I3).
           exists i'. split; [done|]. split; [|done].
           rewrite Hv2, dom_insert_L in I2. set_solver.
    + intros j1 j2 b1 b2 i' H1 H2 L1 L2 I1 I2.
      destruct (Hbtn j1 b1 L1) as (c1 & M1 & _ & O1 & N1).
      destruct (Hbtn j2 b2 L2) as (c2 & M2 & _ & O2 & N2).
      unfold btns1 in M1, M2.
      destruct (decide (j1 = k)) as [->|Hn1]; destruct (decide (j2 = k)) as [->|Hn2];
        [done | | |].
      * exfalso. rewrite list_lookup_insert_eq in M1 by lia. injection M1 as <-.
        rewrite (O1 ltac:(lia)) in I1. cbn in I1. injection I1 as <-.
        destruct (N2 ltac:(lia)) as (i2 & J1 & J2 & _).
        rewrite Hv2, dom_insert_L in J2. assert (i2 = i) by congruence. set_solver.
      * exfalso. rewrite list_lookup_insert_eq in M2 by lia. injection M2 as <-.
        rewrite (O2 ltac:(lia)) in I2. cbn in I2. injection I2 as <-.
        destruct (N1 ltac:(lia)) as (i1 & J1 & J2 & _).
        rewrite Hv2, dom_insert_L in J2. assert (i1 = i) by congruence. set_solver.
      * apply (Hdist j1 j2 b1 b2 i'); (done || lia).
Qed.

Lemma memcpy_at_result (dst src : list Z) (at_ n : Z) (out : list Z) :
  memcpy_at dst at_ src n = Some out →
  0 ≤ at_ ∧ 0 ≤ n ∧
  length out = length dst ∧
  (∀ k, (k < Z.to_nat n)%nat → out !! (Z.to_nat at_ + k)%nat = src !! k) ∧
  (∀ j, (j < Z.to_nat at_ ∨ Z.to_nat at_ + Z.to_nat n ≤ j)%nat →
        out !! j = dst !! j).
Proof.
  unfold memcpy_at. intros H.
  destruct (decide _) as [(Ha & Hn & Hd & Hs)|]; [|done]. injection H as <-.
  split; [done|]. split; [done|].
  set (a := Z.to_nat at_) in *. set (m := Z.to_nat n) in *.
  assert (length (take a dst) = a) as La by (rewrite length_take; lia).
  assert (length (take m src) = m) as Lm by (rewrite length_take; lia).
  split; [|split].
  - rewrite !length_app, La, Lm, length_drop. lia.
  - intros k Hk. rewrite lookup_app_r by lia. rewrite La.
    replace (a + k - a)%nat with k by lia.
    rewrite lookup_app_l by lia. by apply lookup_take_lt.
  - intros j [Hj|Hj].
    + rewrite lookup_app_l by lia. by apply lookup_take_lt.
    + rewrite lookup_app_r by lia. rewrite lookup_app_r by lia.
      rewrite La, Lm, lookup_drop. f_equal. lia.
Qed.

(** Wiring indexes the array at every button: it has a defined result only
    if the array holds them all. *)
Lemma wire_buttons_needs (n : nat) : ∀ (k : nat) st r,
  wire_buttons (seq k (S n)) st = Some r → (k + S n ≤ length st.1)%nat.
Proof.
  induction n as [|n IH]; intros k [bs a] r Hr.
  - cbn [seq wire_buttons] in Hr. unfold wire_button in Hr.
    destruct (bs !! k) as [b|] eqn:Eb; [|discriminate Hr].
    apply lookup_lt_Some in Eb. cbn [fst]. lia.
  - change (seq k (S (S n))) with (k :: seq (S k) (S n)) in Hr.
    cbn [wire_buttons] in Hr. unfold wire_button at 1 in Hr.
    destruct (bs !! k) as [b|] eqn:Eb; [|discriminate Hr].
    cbn [mbind option_bind avr_alloc_irq] in Hr.
    apply lookup_lt_Some in Eb. apply IH in Hr. cbn [fst] in *.
    rewrite length_insert in Hr. lia.
Qed.

Section SetupFacts.
Variable avr_make_mcu_by_name : string → option (mcu_t * avr_boot_t).
Variable read_ihex_file : string → option firmware.
Variable ssd1306_init : ssd1306_t.

Let setup := arduboy_avr_setup avr_make_mcu_by_name read_ihex_file ssd1306_init.

(** What a successful setup is made of. *)
Lemma setup_success (path : string) (cpu_freq : Z) (w w' : world)
    (bt' : option avr_boot_t) :
  setup path cpu_freq w = Some (0, w', bt') →
  ∃ m bt fw flash' btns' a',
    avr_make_mcu_by_name "atmega32u4" = Some (m, bt) ∧
    read_ihex_file path = Some fw ∧
    memcpy_at (flash bt) (boot_base fw) (boot fw) (boot_size fw) = Some flash' ∧
    wire_buttons (seq 0 (Z.to_nat BTN_COUNT))
      (w.1, set_frequency (cpu_freq mod 2 ^ 32) (core m)) = Some (btns', a') ∧
    bt' = Some (Boot flash' (flashend bt) (boot_base fw) (flashend bt) LOG_DEBUG
                  (avr_usec_to_cycles
                     (set_frequency (cpu_freq mod 2 ^ 32) (core m))
                     (REFRESH_PERIOD_US * 2))) ∧
    w' = (btns',
          set_avr (Some (Mcu a' (mcu_eeprom m)))
            (set_lumamap blank_lumamap
               (set_ssd1306 ssd1306_init (set_avr None w.2)))).
Proof.
  destruct w as [btns s]. unfold setup, arduboy_avr_setup. intros H.
  destruct (avr_make_mcu_by_name "atmega32u4") as [[m bt]|]; [|by simplify_eq].
  destruct (read_ihex_file path) as [fw|]; [|by simplify_eq].
  destruct (memcpy_at _ _ _ _) as [flash'|] eqn:Em; [|done].
  cbn [mbind option_bind] in H.
  destruct (wire_buttons _ _) as [[btns' a']|] eqn:Ew; [|done].
  cbn [mbind option_bind] in H. injection H as <- <-.
  exists m, bt, fw, flash', btns', a'. cbn [fst snd]. done.
Qed.

(** X17.  Setup returns 0 or -1.  It returns 0 exactly when the engine could
    be made and the image could be read, and then a Session is active.  When
    it returns -1 no Session is active, also if one was before the call, and
    the buttons are untouched. *)
Theorem arduboy_avr_setup_outcome (path : string) (cpu_freq : Z) (w w' : world)
    (r : Z) (bt' : option avr_boot_t) :
  setup path cpu_freq w = Some (r, w', bt') →
  (r = 0 ∨ r = -1) ∧
  (r = 0 ↔ is_Some (avr w'.2)) ∧
  (r = 0 ↔ is_Some (avr_make_mcu_by_name "atmega32u4")
           ∧ is_Some (read_ihex_file path)) ∧
  (r = -1 → w' = (w.1, set_avr None w.2) ∧ bt' = None).
Proof.
  destruct w as [btns s]. unfold setup, arduboy_avr_setup. intros H.
  destruct (avr_make_mcu_by_name "atmega32u4") as [[m bt]|].
  - destruct (read_ihex_file path) as [fw|].
    + destruct (memcpy_at _ _ _ _) as [flash'|]; [|done].
      cbn [mbind option_bind] in H.
      destruct (wire_buttons _ _) as [[btns' a']|]; [|done].
      cbn [mbind option_bind] in H. injection H as <- <- <-.
      cbn [snd avr set_avr].
      split; [by left|]. split; [done|]. split; [done|]. done.
    + injection H as <- <- <-. cbn [fst snd avr set_avr].
      split; [by right|]. split; [split; [done | by intros [? ?]]|].
      split; [|done]. split; [done|]. by intros [_ [? ?]].
  - injection H as <- <- <-. cbn [fst snd avr set_avr].
    split; [by right|]. split; [split; [done | by intros [? ?]]|].
    split; [|done]. split; [done|]. by intros [[? ?] _].
Qed.

(** X18.  A successful setup loads the image where it says: the bytes of
    the image are in flash from its base address on, the rest of flash is
    as the engine was made, the program counter is the base address and the
    end of code is the end of flash.  The image was inside flash: nothing in
    setup checks that, and when it is not the call has no defined result. *)
Theorem arduboy_avr_setup_loads_image (path : string) (cpu_freq : Z)
    (w w' : world) (bt' : avr_boot_t) (m : mcu_t) (bt : avr_boot_t)
    (fw : firmware) :
  avr_make_mcu_by_name "atmega32u4" = Some (m, bt) →
  read_ihex_file path = Some fw →
  setup path cpu_freq w = Some (0, w', Some bt') →
  pc bt' = boot_base fw ∧ codeend bt' = flashend bt ∧ log bt' = LOG_DEBUG ∧
  length (flash bt') = length (flash bt) ∧
  (Z.to_nat (boot_base fw) + Z.to_nat (boot_size fw) ≤ length (flash bt))%nat ∧
  (∀ k, (k < Z.to_nat (boot_size fw))%nat →
        flash bt' !! (Z.to_nat (boot_base fw) + k)%nat = boot fw !! k) ∧
  (∀ j, (j < Z.to_nat (boot_base fw)
         ∨ Z.to_nat (boot_base fw) + Z.to_nat (boot_size fw) ≤ j)%nat →
        flash bt' !! j = flash bt !! j).
Proof.
  intros Hmake Hread H.
  destruct (setup_success _ _ _ _ _ H)
    as (m1 & bt1 & fw1 & flash' & btns' & a' & E1 & E2 & E3 & _ & E5 & _).
  rewrite Hmake in E1. rewrite Hread in E2. simplify_eq. cbn [pc codeend log flash].
  destruct (memcpy_at_result _ _ _ _ _ E3) as (_ & _ & Hl & Hin & Hout).
  repeat (split; [done|]). split; [|done].
  unfold memcpy_at in E3. destruct (decide _) as [(_ & _ & Hd & _)|]; [done|done].
Qed.

(** X19.  The cap on the cycles of one burst is computed at the frequency
    given to setup and covers two frame periods: it is twice the frame
    period of the Session's engine, or one cycle more. *)
Theorem arduboy_avr_setup_cycle_limit (path : string) (cpu_freq : Z)
    (w w' : world) (bt' : avr_boot_t) :
  setup path cpu_freq w = Some (0, w', Some bt') →
  ∃ m', avr w'.2 = Some m' ∧
        frequency (core m') = cpu_freq mod 2 ^ 32 ∧
        2 * frame_period (core m') ≤ run_cycle_limit bt'
          ≤ 2 * frame_period (core m') + 1.
Proof.
  intros H.
  destruct (setup_success _ _ _ _ _ H)
    as (m & bt & fw & flash' & btns' & a' & _ & _ & _ & Ew & E5 & ->).
  injection E5 as ->. cbn [snd avr set_avr run_cycle_limit core].
  destruct (wire_buttons_wired (Z.to_nat BTN_COUNT) 0 w.1
              (set_frequency (cpu_freq mod 2 ^ 32) (core m)))
    as (btns2 & a2 & Ew2 & Hw).
  { apply wire_buttons_needs in Ew. exact Ew. }
  rewrite Ew in Ew2. injection Ew2 as <- <-.
  destruct Hw as (_ & _ & Hf & _).
  eexists. split; [done|]. cbn [core]. rewrite Hf. cbn [frequency set_frequency].
  split; [done|].
  unfold frame_period, avr_usec_to_cycles, REFRESH_PERIOD_US. rewrite Hf.
  cbn [frequency set_frequency].
  pose proof (Z.mod_pos_bound cpu_freq (2 ^ 32) ltac:(lia)) as Hr.
  set (f := cpu_freq mod 2 ^ 32) in *.
  rewrite !Z.mod_small by lia.
  change (16666 * 2) with 33332.
  Z.div_mod_to_equations. lia.
Qed.
(** Setup has a defined result when the array holds the buttons and the
    image, if there is one, lies inside flash. *)
Lemma setup_defined (path : string) (cpu_freq : Z) (w : world) :
  (Z.to_nat BTN_COUNT ≤ length w.1)%nat →
  (∀ m bt fw, avr_make_mcu_by_name "atmega32u4" = Some (m, bt) →
              read_ihex_file path = Some fw →
              is_Some (memcpy_at (flash bt) (boot_base fw) (boot fw) (boot_size fw))) →
  ∃ r w' bt', setup path cpu_freq w = Some (r, w', bt').
Proof.
  intros Hlen Hfit. destruct w as [btns s]. unfold setup, arduboy_avr_setup.
  destruct (avr_make_mcu_by_name "atmega32u4") as [[m bt]|] eqn:Em; [|by eexists _, _, _].
  destruct (read_ihex_file path) as [fw|] eqn:Er; [|by eexists _, _, _].
  destruct (Hfit m bt fw eq_refl eq_refl) as [flash' ->].
  cbn [mbind option_bind].
  destruct (wire_buttons_wired (Z.to_nat BTN_COUNT) 0 btns
              (set_frequency (cpu_freq mod 2 ^ 32) (core m)))
    as (btns' & a' & -> & _); [done|].
  cbn [mbind option_bind]. by eexists _, _, _.
Qed.

(** The array and the engine after a successful setup. *)
Lemma setup_wired (path : string) (cpu_freq : Z) (w w' : world)
    (bt' : option avr_boot_t) :
  setup path cpu_freq w = Some (0, w', bt') →
  ∃ m a', avr w'.2 = Some (Mcu a' (mcu_eeprom m)) ∧
          wired 0 (Z.to_nat BTN_COUNT) w.1
            (set_frequency (cpu_freq mod 2 ^ 32) (core m)) w'.1 a' ∧
          lumamap w'.2 = blank_lumamap ∧ ssd1306 w'.2 = ssd1306_init ∧
          yield w'.2 = yield w.2 ∧ pixels w'.2 = pixels w.2.
Proof.
  intros H.
  destruct (setup_success _ _ _ _ _ H)
    as (m & bt & fw & flash' & btns' & a' & _ & _ & _ & Ew & _ & ->).
  pose proof (wire_buttons_needs _ _ _ _ Ew) as Hlen.
  destruct (wire_buttons_wired (Z.to_nat BTN_COUNT) 0 w.1
              (set_frequency (cpu_freq mod 2 ^ 32) (core m)) Hlen)
    as (btns2 & a2 & Ew2 & Hw).
  rewrite Ew in Ew2. injection Ew2 as <- <-.
  exists m, a'. done.
Qed.

(** X20.  A successful setup gives every button a line of its own and
    pulls it up, clears the LumaMap and installs the controller; the yield
    flag, the buffer and the stored pressed states are as before.  With the
    six buttons stored as released, every line is then at the level of its
    button. *)
Theorem arduboy_avr_setup_wires (path : string) (cpu_freq : Z) (w w' : world)
    (bt' : option avr_boot_t) :
  setup path cpu_freq w = Some (0, w', bt') →
  lumamap w'.2 = blank_lumamap ∧ ssd1306 w'.2 = ssd1306_init ∧
  yield w'.2 = yield w.2 ∧ pixels w'.2 = pixels w.2 ∧
  (∀ k b', (k < Z.to_nat BTN_COUNT)%nat → w'.1 !! k = Some b' →
     ∃ i, irq b' = Some i ∧ line w' i = Some 1) ∧
  (∀ e, stored w' e = stored w e) ∧
  (length w.1 = Z.to_nat BTN_COUNT → lines_distinct w'.1) ∧
  (length w.1 = Z.to_nat BTN_COUNT →
   (∀ k b, w.1 !! k = Some b → pressed b = false) →
   lines_follow_buttons w').
Proof.
  intros H.
  destruct (setup_wired _ _ _ _ _ H) as (m & a' & Ha & Hw & Hlm & Hssd & Hy & Hpx).
  destruct Hw as (Hl & _ & _ & _ & _ & Hbtn & Hdist).
  assert (∀ k b', (k < Z.to_nat BTN_COUNT)%nat → w'.1 !! k = Some b' →
            ∃ i, irq b' = Some i ∧ line w' i = Some 1) as Hline.
  { intros k b' Hk Hb'. destruct (Hbtn k b' Hb') as (b0 & _ & _ & _ & Hin).
    destruct (Hin ltac:(lia)) as (i & I1 & _ & I3). exists i. split; [done|].
    unfold line. rewrite Ha. done. }
  repeat (split; [done|]). split; [|split].
  - intros e. unfold stored.
    destruct (w'.1 !! Z.to_nat e) as [b'|] eqn:E'.
    + destruct (Hbtn _ _ E') as (b0 & L0 & P0 & _). rewrite L0. cbn.
      by rewrite P0.
    + apply lookup_ge_None in E'. rewrite Hl in E'.
      apply lookup_ge_None in E'. by rewrite E'.
  - intros Hsix k1 k2 b1 b2 i L1 L2 I1 I2.
    apply (Hdist k1 k2 b1 b2 i); try done.
    + apply lookup_lt_Some in L1. lia.
    + apply lookup_lt_Some in L2. lia.
  - intros Hsix Hrel k b' i Hk Hi.
    assert (k < Z.to_nat BTN_COUNT)%nat as Hlt
      by (apply lookup_lt_Some in Hk; lia).
    destruct (Hline k b' Hlt Hk) as (i' & I1 & I2).
    assert (i' = i) as -> by congruence. rewrite I2.
    destruct (Hbtn k b' Hk) as (b0 & L0 & P0 & _).
    by rewrite P0, (Hrel k b0 L0).
Qed.

(** X21.  Setup does not reset the stored button states.  A button stored
    as pressed when setup runs keeps that record while its new line is
    pulled high, so the press event the caller sends next is taken for a
    repetition and the line stays high. *)
Theorem arduboy_avr_setup_keeps_pressed (path : string) (cpu_freq : Z)
    (w w' : world) (bt' : option avr_boot_t) (k : nat) (b : button_info) :
  setup path cpu_freq w = Some (0, w', bt') →
  (k < Z.to_nat BTN_COUNT)%nat → w.1 !! k = Some b → pressed b = true →
  ∃ b' i, w'.1 !! k = Some b' ∧ irq b' = Some i ∧ pressed b' = true ∧
          line w' i = Some 1 ∧
          arduboy_avr_button_event (Z.of_nat k) true w' = Some w' ∧
          ¬ lines_follow_buttons w'.
Proof.
  intros H Hk Hb Hp.
  destruct (setup_wired _ _ _ _ _ H) as (m & a' & Ha & Hw & _).
  destruct Hw as (Hl & _ & _ & _ & _ & Hbtn & _).
  destruct (lookup_lt_is_Some_2 w'.1 k) as [b' Hb'].
  { rewrite Hl. by eapply lookup_lt_Some. }
  destruct (Hbtn k b' Hb') as (b0 & L0 & P0 & _ & Hin).
  rewrite Hb in L0. injection L0 as <-.
  destruct (Hin ltac:(lia)) as (i & I1 & _ & I3).
  assert (line w' i = Some 1) as Hline by (unfold line; by rewrite Ha).
  exists b', i. split; [done|]. split; [done|]. split; [congruence|].
  split; [done|]. split.
  - destruct w' as [btns' s']. cbn [fst snd] in *.
    apply (button_event_same btns' s' _ (Z.of_nat k) true b' Ha).
    + unfold BTN_COUNT in *. lia.
    + by rewrite Nat2Z.id.
    + congruence.
  - intros Hf. specialize (Hf k b' i Hb' I1). rewrite Hline in Hf.
    rewrite P0, Hp in Hf. done.
Qed.
End SetupFacts.

Lemma arduboy_avr_setup_outcome_witness :
  arduboy_avr_setup (λ _, Some new_engine) (λ _, None) (white_controller 0)
    "game.hex" MHZ_16
    (buttons_wired, session 0 cpu_Running 0 blank_lumamap [])
  = Some (-1, (buttons_wired,
               set_avr None (session 0 cpu_Running 0 blank_lumamap [])), None).
Proof.
  set (w := (buttons_wired, session 0 cpu_Running 0 blank_lumamap [])).
  destruct (setup_defined (λ _, Some new_engine) (λ _, None) (white_controller 0)
              "game.hex" MHZ_16 w) as (r & w' & bt' & E).
  - vm_compute. lia.
  - intros m bt fw _ Hnone. discriminate Hnone.
  - destruct (arduboy_avr_setup_outcome _ _ _ _ _ _ _ _ _ E)
      as (Hr & _ & H0 & Hfail).
    destruct Hr as [->| ->].
    + exfalso. destruct (proj1 H0 eq_refl) as [_ [? Hx]]. discriminate Hx.
    + destruct (Hfail eq_refl) as [-> ->]. exact E.
Defined.

Lemma setup_demo :
  ∃ w' bt', arduboy_avr_setup (λ _, Some new_engine) (λ _, Some blink_image)
              (white_controller 0) "game.hex" MHZ_16 module_at_start
            = Some (0, w', Some bt').
Proof. eexists _, _. vm_compute. reflexivity. Qed.

Lemma arduboy_avr_setup_loads_image_witness :
  ∃ w' bt', arduboy_avr_setup (λ _, Some new_engine) (λ _, Some blink_image)
              (white_controller 0) "game.hex" MHZ_16 module_at_start
            = Some (0, w', Some bt') ∧
            pc bt' = 0 ∧ flash bt' !! 1%nat = Some 148.
Proof.
  destruct setup_demo as (w' & bt' & E). exists w', bt'. split; [exact E|].
  destruct (arduboy_avr_setup_loads_image _ _ _ "game.hex" MHZ_16 module_at_start
              w' bt' new_engine.1 new_engine.2 blink_image eq_refl eq_refl E)
    as (Hpc & _ & _ & _ & _ & Hin & _).
  split; [exact Hpc|]. apply (Hin 1%nat). vm_compute. lia.
Defined.

Lemma arduboy_avr_setup_cycle_limit_witness :
  ∃ w' bt', arduboy_avr_setup (λ _, Some new_engine) (λ _, Some blink_image)
              (white_controller 0) "game.hex" MHZ_16 module_at_start
            = Some (0, w', Some bt') ∧
            ∃ m', avr w'.2 = Some m' ∧ frequency (core m') = 16000000.
Proof.
  destruct setup_demo as (w' & bt' & E). exists w', bt'. split; [exact E|].
  destruct (arduboy_avr_setup_cycle_limit _ _ _ _ _ _ _ _ E) as (m' & Hm & Hf & _).
  exists m'. split; [exact Hm|]. rewrite Hf. reflexivity.
Defined.

Lemma arduboy_avr_setup_wires_witness :
  ∃ w' bt', arduboy_avr_setup (λ _, Some new_engine) (λ _, Some blink_image)
              (white_controller 0) "game.hex" MHZ_16 module_at_start
            = Some (0, w', Some bt') ∧
            lines_follow_buttons w'.
Proof.
  destruct setup_demo as (w' & bt' & E). exists w', bt'. split; [exact E|].
  destruct (arduboy_avr_setup_wires _ _ _ _ _ _ _ _ E)
    as (_ & _ & _ & _ & _ & _ & _ & Hf).
  apply Hf.
  - reflexivity.
  - intros k b Hk.
    do 6 (destruct k as [|k]; [vm_compute in Hk; injection Hk as <-; reflexivity|]).
    vm_compute in Hk. discriminate.
Defined.

Lemma setup_demo_held :
  ∃ w' bt', arduboy_avr_setup (λ _, Some new_engine) (λ _, Some blink_image)
              (white_controller 0) "game.hex" MHZ_16
              (<[4%nat := set_pressed true (Btn BTN_A None "btn.a" "E" 6 false)]>
                 buttons,
               ModS None (white_controller 0) false blank_lumamap [])
            = Some (0, w', bt').
Proof. eexists _, _. vm_compute. reflexivity. Qed.

Lemma arduboy_avr_setup_keeps_pressed_witness :
  ∃ w' bt', arduboy_avr_setup (λ _, Some new_engine) (λ _, Some blink_image)
              (white_controller 0) "game.hex" MHZ_16
              (<[4%nat := set_pressed true (Btn BTN_A None "btn.a" "E" 6 false)]>
                 buttons,
               ModS None (white_controller 0) false blank_lumamap [])
            = Some (0, w', bt') ∧
            arduboy_avr_button_event BTN_A true w' = Some w'.
Proof.
  destruct setup_demo_held as (w' & bt' & E). exists w', bt'. split; [exact E|].
  destruct (arduboy_avr_setup_keeps_pressed _ _ _ _ _ _ _ _ 4%nat
              (set_pressed true (Btn BTN_A None "btn.a" "E" 6 false)) E)
    as (b' & i & _ & _ & _ & _ & Hev & _).
  - vm_compute. lia.
  - reflexivity.
  - reflexivity.
  - exact Hev.
Defined.
